(** * x509gen: provisioning of a small private PKI

    Shallow embedding of [x509gen.py] and the properties of the
    certificates it builds and of its create-or-reuse entry point.

    The [cryptography] package (key generation, PEM encoding and decoding,
    key identifiers, signing) is not part of the program: it is taken as an
    interface, [Backend], whose operations the embedded code calls in the
    same places and with the same arguments as the Python code does. *)

From Stdlib Require Import ZArith.
From Stdlib.Strings Require Import Byte.
From stdpp Require Import gmap strings list fin_maps.

Open Scope Z_scope.

(** ** Python values *)

(** A Python [bytes] object. *)
Definition bytes : Type := list byte.

(** Exceptions the program can meet. Only [FileNotFoundError] is ever
    caught (by the [try] statements of [main]). *)
Inductive exn : Type :=
  | FileNotFoundError (filename : string)
  | IsADirectoryError (filename : string)
  | ValueError (message : string)
  | TypeError (message : string)
  | OverflowError (message : string)
  | UnsupportedAlgorithm (message : string)
  | InternalError (message : string).

Inductive res (A : Type) : Type :=
  | Ok (a : A)
  | Raise (e : exn).
Arguments Ok {A} a.
Arguments Raise {A} e.

(** A naive [datetime.datetime] (no time zone; [datetime.datetime.now()]
    gives the local wall-clock time as one), as the number of microseconds
    since 0001-01-01 00:00:00, which is [datetime.min]. *)
Definition datetime : Type := Z.

(* datetime.max: 9999-12-31 23:59:59.999999 *)
Definition datetime_max : datetime := 3652059 * 86400000000 - 1.

(** [datetime.timedelta(days, seconds, microseconds)], as a number of
    microseconds. Python refuses a duration whose day count is beyond
    999999999 either way. *)
Definition timedelta (days seconds microseconds : Z) : res Z :=
  let us := days * 86400000000 + seconds * 1000000 + microseconds in
  if (-999999999 <=? us / 86400000000) && (us / 86400000000 <=? 999999999)
  then Ok us
  else Raise (OverflowError "days; must have magnitude <= 999999999").

(** [time + delta] on a [datetime]: the result has to be a [datetime]. *)
Definition datetime_add (time : datetime) (delta : Z) : res datetime :=
  if (0 <=? time + delta) && (time + delta <=? datetime_max)
  then Ok (time + delta)
  else Raise (OverflowError "date value out of range").

(** A time cut to whole seconds, which is all an X.509 certificate
    holds. *)
Definition whole_seconds (time : datetime) : datetime :=
  time / 1000000 * 1000000.

(** ** X.509 data, as the program hands it to [cryptography.x509] *)

Inductive NameOID : Type :=
  | COMMON_NAME
  | ORGANIZATIONAL_UNIT_NAME
  | SERIAL_NUMBER.

Record NameAttribute : Type := mkNameAttribute {
  attr_oid : NameOID;
  attr_value : string
}.

Definition Name : Type := list NameAttribute.

Record KeyUsage : Type := mkKeyUsage {
  digital_signature : bool;
  content_commitment : bool;
  key_encipherment : bool;
  data_encipherment : bool;
  key_agreement : bool;
  key_cert_sign : bool;
  crl_sign : bool;
  encipher_only : bool;
  decipher_only : bool
}.

Inductive ExtendedKeyUsageOID : Type :=
  | SERVER_AUTH
  | CLIENT_AUTH.

Inductive GeneralName : Type :=
  | DNSName (value : string)
  | DirectoryName (value : Name).

Inductive ExtensionType : Type :=
  | BasicConstraints (ca : bool) (path_length : option Z)
  | KeyUsageExt (usage : KeyUsage)
  | ExtendedKeyUsage (usages : list ExtendedKeyUsageOID)
  | SubjectAlternativeName (general_names : list GeneralName)
  | AuthorityKeyIdentifier (key_identifier : option bytes)
      (authority_cert_issuer : option (list GeneralName))
      (authority_cert_serial_number : option Z)
  | SubjectKeyIdentifier (digest : bytes).

Record Extension : Type := mkExtension {
  ext_value : ExtensionType;
  ext_critical : bool
}.

Inductive HashAlgorithm : Type :=
  | MD5 | SHA1 | SHA224 | SHA256 | SHA384 | SHA512.
Inductive Encoding : Type := PEM | DER.
Inductive PrivateFormat : Type := PKCS8 | TraditionalOpenSSL.
Inductive PublicFormat : Type := PKCS1 | SubjectPublicKeyInfo.
Inductive KeySerializationEncryption : Type :=
  | NoEncryption
  | BestAvailableEncryption (password : bytes).

(** The object identifier of an extension: a certificate holds at most
    one extension of each. *)
Inductive ExtensionOID : Type :=
  | BASIC_CONSTRAINTS
  | KEY_USAGE
  | EXTENDED_KEY_USAGE
  | SUBJECT_ALTERNATIVE_NAME
  | AUTHORITY_KEY_IDENTIFIER
  | SUBJECT_KEY_IDENTIFIER.

#[global] Instance ExtensionOID_eq_dec : EqDecision ExtensionOID.
Proof. solve_decision. Defined.

Definition ext_oid (e : ExtensionType) : ExtensionOID :=
  match e with
  | BasicConstraints _ _ => BASIC_CONSTRAINTS
  | KeyUsageExt _ => KEY_USAGE
  | ExtendedKeyUsage _ => EXTENDED_KEY_USAGE
  | SubjectAlternativeName _ => SUBJECT_ALTERNATIVE_NAME
  | AuthorityKeyIdentifier _ _ _ => AUTHORITY_KEY_IDENTIFIER
  | SubjectKeyIdentifier _ => SUBJECT_KEY_IDENTIFIER
  end.

(** The key and signature types of the backend. *)
Class KeyTypes : Type := {
  PrivateKey : Type;
  PublicKey : Type;
  Signature : Type
}.

Section Structures.
Context `{KeyTypes}.

(** [x509.CertificateBuilder]: every attribute starts unset. *)
Record CertificateBuilder : Type := mkBuilder {
  b_issuer_name : option Name;
  b_subject_name : option Name;
  b_public_key : option PublicKey;
  b_serial_number : option Z;
  b_not_valid_before : option datetime;
  b_not_valid_after : option datetime;
  b_extensions : list Extension
}.

(** [x509.Certificate]: the signed structure. *)
Record Certificate : Type := mkCertificate {
  subject : Name;
  issuer : Name;
  not_valid_before : datetime;
  not_valid_after : datetime;
  serial_number : Z;
  cert_public_key : PublicKey;   (* certificate.public_key() *)
  extensions : list Extension;
  signature_hash_algorithm : HashAlgorithm;
  signature : Signature
}.
End Structures.

(** ** The interface of the [cryptography] package

    [World] is whatever the package draws on besides its arguments: the
    entropy source and the clock. A loader or the signer that refuses
    returns the exception it raises: [ValueError] for bytes that are no
    PEM of the kind asked for, [TypeError] for an encrypted key and no
    password, [UnsupportedAlgorithm] and so on. A certificate that loads
    is taken with its subject and its public key decoded. *)
Class Backend `{KeyTypes} : Type := {
  World : Type;
  (* rsa.generate_private_key(public_exponent, key_size, backend) *)
  rsa_generate_private_key : Z → Z → World → option PrivateKey * World;
  (* private_key.public_key() *)
  private_key_public_key : PrivateKey → PublicKey;
  (* the public exponent and the modulus size of an RSA key *)
  rsa_parameters : PrivateKey → option (Z * Z);
  (* isinstance(key, (DSAPublicKey, RSAPublicKey, EllipticCurvePublicKey,
     Ed25519PublicKey, Ed448PublicKey)): the keys a certificate can hold *)
  is_certificate_public_key : PublicKey → bool;
  (* private_key.private_bytes(encoding, format, encryption_algorithm) *)
  private_bytes :
    PrivateKey → Encoding → PrivateFormat → KeySerializationEncryption → bytes;
  (* public_key.public_bytes(encoding, format) *)
  public_bytes : PublicKey → Encoding → PublicFormat → bytes;
  (* certificate.public_bytes(encoding) *)
  certificate_public_bytes : Certificate → Encoding → bytes;
  (* load_pem_private_key(data, password, backend) *)
  load_pem_private_key : bytes → option bytes → res PrivateKey;
  (* load_pem_public_key(data, backend) *)
  load_pem_public_key : bytes → res PublicKey;
  (* x509.load_pem_x509_certificate(data, backend) *)
  load_pem_x509_certificate : bytes → res Certificate;
  (* the digest behind SubjectKeyIdentifier.from_public_key and
     AuthorityKeyIdentifier.from_issuer_public_key *)
  key_identifier_from_public_key : PublicKey → bytes;
  (* backend.create_x509_certificate(builder, private_key, algorithm): the
     signature over the builder's content, or the exception raised for a
     key or an algorithm the backend does not sign with *)
  backend_sign :
    PrivateKey → HashAlgorithm → CertificateBuilder → res Signature;
  (* datetime.datetime.now() *)
  datetime_now : World → datetime * World;
  (* x509.random_serial_number() *)
  random_serial_number : World → Z * World
}.

(** What the program relies on from [rsa.generate_private_key]: the key it
    returns is an RSA key with the requested parameters. *)
Class BackendSpec `{Backend} : Prop := {
  rsa_generate_parameters :
    ∀ e n w k w',
      rsa_generate_private_key e n w = (Some k, w') →
      rsa_parameters k = Some (e, n)
}.

(** ** A state-and-exception monad

    The state survives an exception: whatever was written before the
    exception stays written. *)
Definition M (S A : Type) : Type := S → res A * S.

#[global] Instance M_ret {S} : MRet (M S) := λ A a s, (Ok a, s).

#[global] Instance M_bind {S} : MBind (M S) := λ A B f m s,
  match m s with
  | (Ok a, s') => f a s'
  | (Raise e, s') => (Raise e, s')
  end.

Definition raise {S A} (e : exn) : M S A := λ s, (Raise e, s).

(** A call that returns or raises and leaves the state alone. *)
Definition lift {S A} (r : res A) : M S A := λ s, (r, s).

(** [try: body / except FileNotFoundError: handler]. *)
Definition try_except_FileNotFoundError {S A}
    (body handler : M S A) : M S A := λ s,
  match body s with
  | (Raise (FileNotFoundError _), s') => handler s'
  | r => r
  end.

(** ** [x509.CertificateBuilder]

    Each method returns a new builder or raises: an attribute is set once,
    the dates are not before 1950 and in order, the serial number is
    positive and of at most 159 bits, the key is of a kind a certificate
    can hold, and an extension is added once. *)

Module Builder.
Section Builder.
Context `{Backend}.

(* 1950-01-01 00:00:00, the earliest date of a certificate *)
Definition EARLY_UTC_TIME : datetime := 711857 * 86400000000.

(* x509.CertificateBuilder() *)
Definition new : CertificateBuilder :=
  mkBuilder None None None None None None [].

Definition issuer_name (b : CertificateBuilder) (name : Name)
    : res CertificateBuilder :=
  match b_issuer_name b with
  | Some _ => Raise (ValueError "The issuer name may only be set once.")
  | None =>
      Ok (mkBuilder (Some name) (b_subject_name b) (b_public_key b)
            (b_serial_number b) (b_not_valid_before b) (b_not_valid_after b)
            (b_extensions b))
  end.

Definition subject_name (b : CertificateBuilder) (name : Name)
    : res CertificateBuilder :=
  match b_subject_name b with
  | Some _ => Raise (ValueError "The subject name may only be set once.")
  | None =>
      Ok (mkBuilder (b_issuer_name b) (Some name) (b_public_key b)
            (b_serial_number b) (b_not_valid_before b) (b_not_valid_after b)
            (b_extensions b))
  end.

Definition public_key (b : CertificateBuilder) (key : PublicKey)
    : res CertificateBuilder :=
  if is_certificate_public_key key then
    match b_public_key b with
    | Some _ => Raise (ValueError "The public key may only be set once.")
    | None =>
        Ok (mkBuilder (b_issuer_name b) (b_subject_name b) (Some key)
              (b_serial_number b) (b_not_valid_before b)
              (b_not_valid_after b) (b_extensions b))
    end
  else
    Raise (TypeError "Expecting one of DSAPublicKey, RSAPublicKey, EllipticCurvePublicKey, Ed25519PublicKey or Ed448PublicKey.").

Definition serial_number (b : CertificateBuilder) (number : Z)
    : res CertificateBuilder :=
  match b_serial_number b with
  | Some _ => Raise (ValueError "The serial number may only be set once.")
  | None =>
      if number <=? 0 then
        Raise (ValueError "The serial number should be positive.")
      else if 2 ^ 159 <=? number then
        Raise (ValueError "The serial number should not be more than 159 bits.")
      else
        Ok (mkBuilder (b_issuer_name b) (b_subject_name b) (b_public_key b)
              (Some number) (b_not_valid_before b) (b_not_valid_after b)
              (b_extensions b))
  end.

Definition not_valid_before (b : CertificateBuilder) (time : datetime)
    : res CertificateBuilder :=
  match b_not_valid_before b with
  | Some _ => Raise (ValueError "The not valid before may only be set once.")
  | None =>
      if time <? EARLY_UTC_TIME then
        Raise (ValueError "The not valid before date must be on or after 1950 January 1).")
      else
        let set :=
          mkBuilder (b_issuer_name b) (b_subject_name b) (b_public_key b)
            (b_serial_number b) (Some time) (b_not_valid_after b)
            (b_extensions b) in
        match b_not_valid_after b with
        | Some after =>
            if after <? time then
              Raise (ValueError "The not valid before date must be before the not valid after date.")
            else Ok set
        | None => Ok set
        end
  end.

Definition not_valid_after (b : CertificateBuilder) (time : datetime)
    : res CertificateBuilder :=
  match b_not_valid_after b with
  | Some _ => Raise (ValueError "The not valid after may only be set once.")
  | None =>
      if time <? EARLY_UTC_TIME then
        Raise (ValueError "The not valid after date must be on or after 1950 January 1.")
      else
        let set :=
          mkBuilder (b_issuer_name b) (b_subject_name b) (b_public_key b)
            (b_serial_number b) (b_not_valid_before b) (Some time)
            (b_extensions b) in
        match b_not_valid_before b with
        | Some before =>
            if time <? before then
              Raise (ValueError "The not valid after date must be after the not valid before date.")
            else Ok set
        | None => Ok set
        end
  end.

(* Extensions are kept in the order they are added. *)
Definition add_extension (b : CertificateBuilder)
    (extension : ExtensionType) (critical : bool)
    : res CertificateBuilder :=
  if existsb (λ e, bool_decide (ext_oid (ext_value e) = ext_oid extension))
       (b_extensions b)
  then Raise (ValueError "This extension has already been set.")
  else
    Ok (mkBuilder (b_issuer_name b) (b_subject_name b) (b_public_key b)
          (b_serial_number b) (b_not_valid_before b) (b_not_valid_after b)
          (b_extensions b ++ [mkExtension extension critical])).

(* builder.sign(private_key, algorithm, backend): refuses a builder with
   an unset attribute, then has the backend sign. The certificate carries
   the builder's content, its two dates cut to whole seconds, and the
   backend's signature. *)
Definition sign (b : CertificateBuilder) (private_key : PrivateKey)
    (algorithm : HashAlgorithm) : res Certificate :=
  match b_subject_name b with
  | None => Raise (ValueError "A certificate must have a subject name")
  | Some subj =>
  match b_issuer_name b with
  | None => Raise (ValueError "A certificate must have an issuer name")
  | Some iss =>
  match b_serial_number b with
  | None => Raise (ValueError "A certificate must have a serial number")
  | Some ser =>
  match b_not_valid_before b with
  | None =>
      Raise (ValueError "A certificate must have a not valid before time")
  | Some nvb =>
  match b_not_valid_after b with
  | None =>
      Raise (ValueError "A certificate must have a not valid after time")
  | Some nva =>
  match b_public_key b with
  | None => Raise (ValueError "A certificate must have a public key")
  | Some pk =>
      match backend_sign private_key algorithm b with
      | Ok sig =>
          Ok (mkCertificate subj iss (whole_seconds nvb) (whole_seconds nva)
                ser pk (b_extensions b) algorithm sig)
      | Raise e => Raise e
      end
  end end end end end end.
End Builder.
End Builder.

Section Program.
Context `{Backend}.

(* x509.AuthorityKeyIdentifier.from_issuer_public_key(public_key) *)
Definition AuthorityKeyIdentifier_from_issuer_public_key
    (pk : PublicKey) : ExtensionType :=
  AuthorityKeyIdentifier (Some (key_identifier_from_public_key pk))
    None None.

(* x509.SubjectKeyIdentifier.from_public_key(public_key) *)
Definition SubjectKeyIdentifier_from_public_key
    (pk : PublicKey) : ExtensionType :=
  SubjectKeyIdentifier (key_identifier_from_public_key pk).

(** Calls into the backend that use the entropy source or the clock. *)
Definition call {A} (f : World → A * World) : M World A :=
  λ w, let '(a, w') := f w in (Ok a, w').

Definition call_opt {A} (f : World → option A * World) (e : exn)
    : M World A :=
  λ w, match f w with
       | (Some a, w') => (Ok a, w')
       | (None, w') => (Raise e, w')
       end.

(** ** The module-level constants of x509gen.py *)

Definition ROOT_DN : Name :=
  [mkNameAttribute COMMON_NAME "Mothership Root"].

Definition INTERMEDIATE_DN : Name :=
  [mkNameAttribute COMMON_NAME "Mothership CA1"].

Definition SERVER_DN : Name :=
  [mkNameAttribute ORGANIZATIONAL_UNIT_NAME "Mothership Server"].

Definition CLIENT_DN : Name :=
  [mkNameAttribute ORGANIZATIONAL_UNIT_NAME "Random client"].

Definition CA_KEYUSAGE : KeyUsage := {|
  digital_signature := true;
  content_commitment := false;
  key_encipherment := false;
  data_encipherment := false;
  key_agreement := false;
  key_cert_sign := true;
  crl_sign := true;
  encipher_only := false;
  decipher_only := false
|}.

Definition ENTITY_KEYUSAGE : KeyUsage := {|
  digital_signature := true;
  content_commitment := false;
  key_encipherment := true;
  data_encipherment := false;
  key_agreement := false;
  key_cert_sign := false;
  crl_sign := false;
  encipher_only := false;
  decipher_only := false
|}.

Definition SELFSIGNED_ENTITY_KEYUSAGE : KeyUsage := {|
  digital_signature := true;
  content_commitment := false;
  key_encipherment := true;
  data_encipherment := false;
  key_agreement := false;
  key_cert_sign := true;
  crl_sign := false;
  encipher_only := false;
  decipher_only := false
|}.

Definition SERVER_EXTKEYUSAGE : ExtensionType :=
  ExtendedKeyUsage [SERVER_AUTH].

Definition CLIENT_EXTKEYUSAGE : ExtensionType :=
  ExtendedKeyUsage [CLIENT_AUTH].

(** ** Key pairs and certificates *)

Definition create_rsa_key_pair : M World (bytes * bytes) :=
  private_key ← call_opt (rsa_generate_private_key 65537 2048)
                  (InternalError "generate_private_key");
  let public_key := private_key_public_key private_key in
  let priv_bytes := private_bytes private_key PEM PKCS8 NoEncryption in
  let pub_bytes := public_bytes public_key PEM PKCS1 in
  mret (priv_bytes, pub_bytes).

Definition _cert_helper (public_key : PublicKey)
    (subject_dn issuer_dn : Name) (days : Z) : M World CertificateBuilder :=
  let builder := Builder.new in
  builder ← lift (Builder.subject_name builder subject_dn);
  builder ← lift (Builder.issuer_name builder issuer_dn);
  validity_start ← call datetime_now;
  delta ← lift (timedelta days 0 0);
  validity_end ← lift (datetime_add validity_start delta);
  builder ← lift (Builder.not_valid_before builder validity_start);
  builder ← lift (Builder.not_valid_after builder validity_end);
  serial ← call random_serial_number;
  builder ← lift (Builder.serial_number builder serial);
  builder ← lift (Builder.public_key builder public_key);
  mret builder.

Definition create_root_cert (pem_private_key : bytes) (days : Z)
    : M World bytes :=
  private_key ← lift (load_pem_private_key pem_private_key None);
  let public_key := private_key_public_key private_key in
  builder ← _cert_helper public_key ROOT_DN ROOT_DN days;
  builder ←
    lift (Builder.add_extension builder (BasicConstraints true None) true);
  builder ←
    lift (Builder.add_extension builder (KeyUsageExt CA_KEYUSAGE) true);
  builder ←
    lift (Builder.add_extension builder
            (AuthorityKeyIdentifier_from_issuer_public_key public_key)
            false);
  builder ←
    lift (Builder.add_extension builder
            (SubjectKeyIdentifier_from_public_key public_key) false);
  certificate ← lift (Builder.sign builder private_key SHA256);
  let cert_bytes := certificate_public_bytes certificate PEM in
  mret cert_bytes.

Definition create_signing_cert
    (pem_issuer_cert pem_private_key pem_public_key : bytes) (days : Z)
    : M World bytes :=
  issuer_cert ← lift (load_pem_x509_certificate pem_issuer_cert);
  private_key ← lift (load_pem_private_key pem_private_key None);
  public_key ← lift (load_pem_public_key pem_public_key);
  builder ← _cert_helper public_key INTERMEDIATE_DN
              (subject issuer_cert) days;
  builder ←
    lift (Builder.add_extension builder (BasicConstraints true (Some 0))
            true);
  builder ←
    lift (Builder.add_extension builder (KeyUsageExt CA_KEYUSAGE) true);
  builder ←
    lift (Builder.add_extension builder
            (AuthorityKeyIdentifier_from_issuer_public_key
               (cert_public_key issuer_cert)) false);
  builder ←
    lift (Builder.add_extension builder
            (SubjectKeyIdentifier_from_public_key public_key) false);
  certificate ← lift (Builder.sign builder private_key SHA256);
  let cert_bytes := certificate_public_bytes certificate PEM in
  mret cert_bytes.

Definition create_server_cert
    (pem_issuer_cert pem_private_key pem_public_key : bytes) (days : Z)
    : M World bytes :=
  issuer_cert ← lift (load_pem_x509_certificate pem_issuer_cert);
  private_key ← lift (load_pem_private_key pem_private_key None);
  public_key ← lift (load_pem_public_key pem_public_key);
  builder ← _cert_helper public_key SERVER_DN (subject issuer_cert) days;
  builder ←
    lift (Builder.add_extension builder
            (SubjectAlternativeName [DNSName "mothership_server"]) true);
  builder ←
    lift (Builder.add_extension builder (BasicConstraints false None) true);
  builder ←
    lift (Builder.add_extension builder (KeyUsageExt ENTITY_KEYUSAGE) true);
  builder ← lift (Builder.add_extension builder SERVER_EXTKEYUSAGE true);
  builder ←
    lift (Builder.add_extension builder
            (AuthorityKeyIdentifier_from_issuer_public_key
               (cert_public_key issuer_cert)) false);
  builder ←
    lift (Builder.add_extension builder
            (SubjectKeyIdentifier_from_public_key public_key) false);
  certificate ← lift (Builder.sign builder private_key SHA256);
  let cert_bytes := certificate_public_bytes certificate PEM in
  mret cert_bytes.

Definition create_selfsigned_client_cert (pem_private_key : bytes)
    (days : Z) : M World bytes :=
  private_key ← lift (load_pem_private_key pem_private_key None);
  let public_key := private_key_public_key private_key in
  builder ← _cert_helper public_key CLIENT_DN CLIENT_DN days;
  let device_name := [mkNameAttribute SERIAL_NUMBER "device_0001"] in
  builder ←
    lift (Builder.add_extension builder
            (SubjectAlternativeName [DirectoryName device_name]) true);
  builder ←
    lift (Builder.add_extension builder (BasicConstraints false None) true);
  builder ←
    lift (Builder.add_extension builder
            (KeyUsageExt SELFSIGNED_ENTITY_KEYUSAGE) true);
  builder ← lift (Builder.add_extension builder CLIENT_EXTKEYUSAGE true);
  builder ←
    lift (Builder.add_extension builder
            (AuthorityKeyIdentifier_from_issuer_public_key public_key)
            false);
  builder ←
    lift (Builder.add_extension builder
            (SubjectKeyIdentifier_from_public_key public_key) false);
  certificate ← lift (Builder.sign builder private_key SHA256);
  let cert_bytes := certificate_public_bytes certificate PEM in
  mret cert_bytes.
End Program.

(** ** The working directory and the entry point *)

(** What a name of the working directory can denote. Opening a directory,
    for reading or for writing, raises [IsADirectoryError], which is not a
    [FileNotFoundError]. *)
Inductive entry : Type :=
  | File (content : bytes)
  | Directory.

(** What a run does to its environment, oldest first. *)
Inductive event : Type :=
  | EvRead (filename : string)
  | EvWrite (filename : string) (content : bytes)
  | EvPrint (text : string).

(** What a run logs when it finds every file: twelve reads and eight
    messages. *)
Definition read_only_events : list event :=
  [EvRead "root_ca_priv_key.pem"; EvRead "root_ca_pub_key.pem";
   EvPrint "read root CA keys.";
   EvRead "root_cert.pem"; EvPrint "read root certificate.";
   EvRead "signing_ca_priv_key.pem"; EvRead "signing_ca_pub_key.pem";
   EvPrint "read signing keys.";
   EvRead "signing_cert.pem"; EvPrint "read signing certificate.";
   EvRead "server_priv_key.pem"; EvRead "server_pub_key.pem";
   EvPrint "read server keys.";
   EvRead "server_cert.pem"; EvPrint "read server certificate.";
   EvRead "client_priv_key.pem"; EvRead "client_pub_key.pem";
   EvPrint "read client keys.";
   EvRead "client_cert.pem"; EvPrint "read client certificate."].

Section Main.
Context `{Backend}.

Record State : Type := mkState {
  fs : gmap string entry;
  trace : list event;
  world : World
}.

Definition log (e : event) (s : State) : State :=
  mkState (fs s) (trace s ++ [e]) (world s).

(* open(filename, 'rb').read() *)
Definition read_file (filename : string) : M State bytes := λ s,
  match fs s !! filename with
  | Some (File content) => (Ok content, log (EvRead filename) s)
  | Some Directory => (Raise (IsADirectoryError filename), s)
  | None => (Raise (FileNotFoundError filename), s)
  end.

(* open(filename, 'wb').write(content) *)
Definition write_file (filename : string) (content : bytes)
    : M State unit := λ s,
  match fs s !! filename with
  | Some Directory => (Raise (IsADirectoryError filename), s)
  | _ =>
      (Ok (),
       log (EvWrite filename content)
         (mkState (<[filename := File content]> (fs s)) (trace s)
            (world s)))
  end.

(* print(text) *)
Definition print (text : string) : M State unit := λ s,
  (Ok (), log (EvPrint text) s).

(** A computation of the backend, run inside the program. *)
Definition in_world {A} (m : M World A) : M State A := λ s,
  let '(r, w') := m (world s) in (r, mkState (fs s) (trace s) w').

(** The eight [try] statements of [main], in order; each one binds the
    variables named after it. *)

Definition main_root_ca_keys : M State (bytes * bytes) :=
  try_except_FileNotFoundError
    (root_ca_priv_key ← read_file "root_ca_priv_key.pem";
     root_ca_pub_key ← read_file "root_ca_pub_key.pem";
     print "read root CA keys.";;
     mret (root_ca_priv_key, root_ca_pub_key))
    (print "Creating new root keys.";;
     '(root_ca_priv_key, root_ca_pub_key) ← in_world create_rsa_key_pair;
     write_file "root_ca_priv_key.pem" root_ca_priv_key;;
     write_file "root_ca_pub_key.pem" root_ca_pub_key;;
     mret (root_ca_priv_key, root_ca_pub_key)).

Definition main_root_cert (root_ca_priv_key : bytes) : M State bytes :=
  try_except_FileNotFoundError
    (root_cert ← read_file "root_cert.pem";
     print "read root certificate.";;
     mret root_cert)
    (print "Creating new root certificate.";;
     root_cert ← in_world (create_root_cert root_ca_priv_key 365);
     write_file "root_cert.pem" root_cert;;
     mret root_cert).

Definition main_signing_ca_keys : M State (bytes * bytes) :=
  try_except_FileNotFoundError
    (signing_ca_priv_key ← read_file "signing_ca_priv_key.pem";
     signing_ca_pub_key ← read_file "signing_ca_pub_key.pem";
     print "read signing keys.";;
     mret (signing_ca_priv_key, signing_ca_pub_key))
    (print "Creating new signing CA keys.";;
     '(signing_ca_priv_key, signing_ca_pub_key) ←
       in_world create_rsa_key_pair;
     write_file "signing_ca_priv_key.pem" signing_ca_priv_key;;
     write_file "signing_ca_pub_key.pem" signing_ca_pub_key;;
     mret (signing_ca_priv_key, signing_ca_pub_key)).

Definition main_signing_cert
    (root_cert root_ca_priv_key signing_ca_pub_key : bytes)
    : M State bytes :=
  try_except_FileNotFoundError
    (signing_cert ← read_file "signing_cert.pem";
     print "read signing certificate.";;
     mret signing_cert)
    (print "Creating new signing certificate.";;
     signing_cert ←
       in_world (create_signing_cert root_cert root_ca_priv_key
                   signing_ca_pub_key 14);
     write_file "signing_cert.pem" signing_cert;;
     mret signing_cert).

Definition main_server_keys : M State (bytes * bytes) :=
  try_except_FileNotFoundError
    (server_priv_key ← read_file "server_priv_key.pem";
     server_pub_key ← read_file "server_pub_key.pem";
     print "read server keys.";;
     mret (server_priv_key, server_pub_key))
    (print "Creating new server keys.";;
     '(server_priv_key, server_pub_key) ← in_world create_rsa_key_pair;
     write_file "server_priv_key.pem" server_priv_key;;
     write_file "server_pub_key.pem" server_pub_key;;
     mret (server_priv_key, server_pub_key)).

Definition main_server_cert
    (signing_cert signing_ca_priv_key server_pub_key : bytes)
    : M State bytes :=
  try_except_FileNotFoundError
    (server_cert ← read_file "server_cert.pem";
     print "read server certificate.";;
     mret server_cert)
    (print "Creating new server certificate.";;
     server_cert ←
       in_world (create_server_cert signing_cert signing_ca_priv_key
                   server_pub_key 14);
     write_file "server_cert.pem" server_cert;;
     mret server_cert).

Definition main_client_keys : M State (bytes * bytes) :=
  try_except_FileNotFoundError
    (client_priv_key ← read_file "client_priv_key.pem";
     client_pub_key ← read_file "client_pub_key.pem";
     print "read client keys.";;
     mret (client_priv_key, client_pub_key))
    (print "Creating new client keys.";;
     '(client_priv_key, client_pub_key) ← in_world create_rsa_key_pair;
     write_file "client_priv_key.pem" client_priv_key;;
     write_file "client_pub_key.pem" client_pub_key;;
     mret (client_priv_key, client_pub_key)).

Definition main_client_cert (client_priv_key : bytes) : M State bytes :=
  try_except_FileNotFoundError
    (client_cert ← read_file "client_cert.pem";
     print "read client certificate.";;
     mret client_cert)
    (print "Creating new client certificate.";;
     client_cert ←
       in_world (create_selfsigned_client_cert client_priv_key 14);
     write_file "client_cert.pem" client_cert;;
     mret client_cert).

Definition main : M State unit :=
  '(root_ca_priv_key, root_ca_pub_key) ← main_root_ca_keys;
  root_cert ← main_root_cert root_ca_priv_key;
  '(signing_ca_priv_key, signing_ca_pub_key) ← main_signing_ca_keys;
  signing_cert ←
    main_signing_cert root_cert root_ca_priv_key signing_ca_pub_key;
  '(server_priv_key, server_pub_key) ← main_server_keys;
  server_cert ←
    main_server_cert signing_cert signing_ca_priv_key server_pub_key;
  '(client_priv_key, client_pub_key) ← main_client_keys;
  client_cert ← main_client_cert client_priv_key;
  mret ().
End Main.

(** ** Reading a certificate's extensions *)

(* extensions.get_extension_for_oid(oid); None where Python raises
   ExtensionNotFound. *)
Definition get_extension_for_oid (exts : list Extension)
    (oid : ExtensionOID) : option Extension :=
  List.find (λ e, bool_decide (ext_oid (ext_value e) = oid)) exts.

(* The digest of the SubjectKeyIdentifier extension, when there is one. *)
Definition subject_key_identifier (exts : list Extension) : option bytes :=
  match get_extension_for_oid exts SUBJECT_KEY_IDENTIFIER with
  | Some (mkExtension (SubjectKeyIdentifier digest) _) => Some digest
  | _ => None
  end.

(* The key identifier of the AuthorityKeyIdentifier extension, when there
   is one and it has a key identifier. *)
Definition authority_key_identifier (exts : list Extension) : option bytes :=
  match get_extension_for_oid exts AUTHORITY_KEY_IDENTIFIER with
  | Some (mkExtension (AuthorityKeyIdentifier (Some key_id) _ _) _) =>
      Some key_id
  | _ => None
  end.


(** ** The eight artifact slots *)

Inductive slot : Type :=
  | RootKeys | RootCert
  | SigningKeys | SigningCert
  | ServerKeys | ServerCert
  | ClientKeys | ClientCert.

(** The files of a slot: a key slot is a private and a public key file. *)
Definition slot_files (k : slot) : list string :=
  match k with
  | RootKeys => ["root_ca_priv_key.pem"; "root_ca_pub_key.pem"]
  | RootCert => ["root_cert.pem"]
  | SigningKeys => ["signing_ca_priv_key.pem"; "signing_ca_pub_key.pem"]
  | SigningCert => ["signing_cert.pem"]
  | ServerKeys => ["server_priv_key.pem"; "server_pub_key.pem"]
  | ServerCert => ["server_cert.pem"]
  | ClientKeys => ["client_priv_key.pem"; "client_pub_key.pem"]
  | ClientCert => ["client_cert.pem"]
  end.

(** The position of a slot's [try] statement in [main]. *)
Definition slot_rank (k : slot) : nat :=
  match k with
  | RootKeys => 0 | RootCert => 1
  | SigningKeys => 2 | SigningCert => 3
  | ServerKeys => 4 | ServerCert => 5
  | ClientKeys => 6 | ClientCert => 7
  end.

(** A slot is present when each of its files can be opened and read. *)
Definition present (k : slot) (m : gmap string entry) : Prop :=
  ∀ f, f ∈ slot_files k → ∃ content, m !! f = Some (File content).

(** A slot has a missing file: what sends its [try] statement to the
    [except FileNotFoundError] branch. *)
Definition missing (k : slot) (m : gmap string entry) : Prop :=
  ∃ f, f ∈ slot_files k ∧ m !! f = None.

Section Blocks.
Context `{Backend}.

(** The two shapes of the [try] statements of [main]. *)
Definition keys_block (priv pub read_msg create_msg : string)
    : M State (bytes * bytes) :=
  try_except_FileNotFoundError
    (priv_key ← read_file priv;
     pub_key ← read_file pub;
     print read_msg;;
     mret (priv_key, pub_key))
    (print create_msg;;
     '(priv_key, pub_key) ← in_world create_rsa_key_pair;
     write_file priv priv_key;;
     write_file pub pub_key;;
     mret (priv_key, pub_key)).

Definition cert_block (file read_msg create_msg : string)
    (create : M World bytes) : M State bytes :=
  try_except_FileNotFoundError
    (cert ← read_file file;
     print read_msg;;
     mret cert)
    (print create_msg;;
     cert ← in_world create;
     write_file file cert;;
     mret cert).

(** The state with the name [f] made to denote [e]. *)
Definition set_file (f : string) (e : entry) (s : State) : State :=
  mkState (<[f := e]> (fs s)) (trace s) (world s).

(** Where a file written by a run comes from: which call produced its
    content, from which files of the store [m]. *)
Definition key_pair_origin (priv pub f : string) (content : bytes)
    : Prop :=
  ∃ priv_bytes pub_bytes w w',
    create_rsa_key_pair w = (Ok (priv_bytes, pub_bytes), w') ∧
    ((f = priv ∧ content = priv_bytes) ∨ (f = pub ∧ content = pub_bytes)).

Definition origin (k : slot) (f : string) (content : bytes)
    (m : gmap string entry) : Prop :=
  match k with
  | RootKeys =>
      key_pair_origin "root_ca_priv_key.pem" "root_ca_pub_key.pem"
        f content
  | SigningKeys =>
      key_pair_origin "signing_ca_priv_key.pem" "signing_ca_pub_key.pem"
        f content
  | ServerKeys =>
      key_pair_origin "server_priv_key.pem" "server_pub_key.pem" f content
  | ClientKeys =>
      key_pair_origin "client_priv_key.pem" "client_pub_key.pem" f content
  | RootCert =>
      ∃ root_ca_priv_key w w',
        m !! "root_ca_priv_key.pem" = Some (File root_ca_priv_key) ∧
        create_root_cert root_ca_priv_key 365 w = (Ok content, w')
  | SigningCert =>
      ∃ root_cert root_ca_priv_key signing_ca_pub_key w w',
        m !! "root_cert.pem" = Some (File root_cert) ∧
        m !! "root_ca_priv_key.pem" = Some (File root_ca_priv_key) ∧
        m !! "signing_ca_pub_key.pem" = Some (File signing_ca_pub_key) ∧
        create_signing_cert root_cert root_ca_priv_key signing_ca_pub_key
          14 w = (Ok content, w')
  | ServerCert =>
      ∃ signing_cert signing_ca_priv_key server_pub_key w w',
        m !! "signing_cert.pem" = Some (File signing_cert) ∧
        m !! "signing_ca_priv_key.pem" = Some (File signing_ca_priv_key) ∧
        m !! "server_pub_key.pem" = Some (File server_pub_key) ∧
        create_server_cert signing_cert signing_ca_priv_key server_pub_key
          14 w = (Ok content, w')
  | ClientCert =>
      ∃ client_priv_key w w',
        m !! "client_priv_key.pem" = Some (File client_priv_key) ∧
        create_selfsigned_client_cert client_priv_key 14 w
          = (Ok content, w')
  end.

(** What a [try] statement of [main] guarantees, whatever the state it
    is run from: with [evs] the events it appends,
    - a file it does not write is as it was;
    - a file it writes is a file of its slot [k], holds what was written,
      the slot had a missing file, and the content satisfies [G];
    - when it returns [v], the slot is present and [V v] holds. *)
Definition block_contract {A} (k : slot) (G : string → bytes → Prop)
    (V : A → gmap string entry → Prop) (blk : M State A) : Prop :=
  ∀ s, ∃ evs, trace (blk s).2 = trace s ++ evs ∧
    (∀ f, (∀ content, EvWrite f content ∉ evs) →
          fs (blk s).2 !! f = fs s !! f) ∧
    (∀ f content, EvWrite f content ∈ evs →
       f ∈ slot_files k ∧ fs (blk s).2 !! f = Some (File content) ∧
       missing k (fs s) ∧ G f content) ∧
    (∀ v, (blk s).1 = Ok v →
       present k (fs (blk s).2) ∧ V v (fs (blk s).2)).

(** The events of a run: what it appended to the trace. *)
Definition run_events (s s' : State) (evs : list event) : Prop :=
  trace s' = trace s ++ evs.

(** The ledger of a run from [s0] that has reached [s]:
    - a file the run did not write is as it was;
    - a file the run wrote holds what was written, belongs to a slot
      that had a missing file at the start, whose [try] statement is
      among the first [n], every earlier slot being present by now, and
      its content has the slot's origin in the store as it is now. *)
Definition ledger (s0 : State) (n : nat) (s : State) : Prop :=
  ∃ evs, run_events s0 s evs ∧
    (∀ f, (∀ content, EvWrite f content ∉ evs) →
          fs s !! f = fs s0 !! f) ∧
    (∀ f content, EvWrite f content ∈ evs →
       fs s !! f = Some (File content) ∧
       ∃ k, f ∈ slot_files k ∧ (slot_rank k < n)%nat ∧
            missing k (fs s0) ∧
            (∀ k', (slot_rank k' < slot_rank k)%nat → present k' (fs s)) ∧
            origin k f content (fs s)).

(** The run from [s0] has got through its first [n] [try] statements. *)
Definition reached (s0 : State) (n : nat) (s : State) : Prop :=
  ledger s0 n s ∧
  ∀ k, (slot_rank k < n)%nat → present k (fs s).
End Blocks.

(** ** Roles *)

Inductive role : Type := Root | IntermediateCA | Server | Client.

Definition cert_file (r : role) : string :=
  match r with
  | Root => "root_cert.pem"
  | IntermediateCA => "signing_cert.pem"
  | Server => "server_cert.pem"
  | Client => "client_cert.pem"
  end.

Definition cert_slot (r : role) : slot :=
  match r with
  | Root => RootCert
  | IntermediateCA => SigningCert
  | Server => ServerCert
  | Client => ClientCert
  end.

(** The validity [main] asks for, in days. *)
Definition requested_days (r : role) : Z :=
  match r with
  | Root => 365
  | IntermediateCA | Server | Client => 14
  end.

Section Built.
Context `{Backend}.

(** [content] is what the builder of role [r] returns when called in the
    world [w] for a validity of [days]. *)
Definition builds (r : role) (days : Z) (w : World) (content : bytes)
    : Prop :=
  match r with
  | Root =>
      ∃ pem_private_key w',
        create_root_cert pem_private_key days w = (Ok content, w')
  | IntermediateCA =>
      ∃ pem_issuer_cert pem_private_key pem_public_key w',
        create_signing_cert pem_issuer_cert pem_private_key
          pem_public_key days w = (Ok content, w')
  | Server =>
      ∃ pem_issuer_cert pem_private_key pem_public_key w',
        create_server_cert pem_issuer_cert pem_private_key
          pem_public_key days w = (Ok content, w')
  | Client =>
      ∃ pem_private_key w',
        create_selfsigned_client_cert pem_private_key days w
          = (Ok content, w')
  end.

(** The certificate [c] was assembled in the world [w]: names, subject
    key, the clock reading of [w] and that reading [days] days later, both
    cut to whole seconds, the serial number drawn next, the extensions
    [exts], and a SHA-256 signature made with [signer]. *)
Definition certificate_of (c : Certificate) (subject_dn issuer_dn : Name)
    (key : PublicKey) (signer : PrivateKey) (w : World) (days : Z)
    (exts : list Extension) : Prop :=
  subject c = subject_dn ∧
  issuer c = issuer_dn ∧
  not_valid_before c = whole_seconds (datetime_now w).1 ∧
  not_valid_after c =
    whole_seconds ((datetime_now w).1 + days * 86400000000) ∧
  serial_number c = (random_serial_number (datetime_now w).2).1 ∧
  cert_public_key c = key ∧
  extensions c = exts ∧
  signature_hash_algorithm c = SHA256 ∧
  ∃ tbs, backend_sign signer SHA256 tbs = Ok (signature c).

(** The run of [main] from [s0] writes [content] to the file [f]. *)
Definition main_writes (s0 : State) (f : string) (content : bytes)
    : Prop :=
  ∃ evs, trace (main s0).2 = trace s0 ++ evs ∧ EvWrite f content ∈ evs.



(** The [try] statement of [main] for the certificate of role [r], given
    the variables it uses. *)
Definition main_cert_statement (r : role)
    (issuer_cert priv_key pub_key : bytes) : M State bytes :=
  match r with
  | Root => main_root_cert priv_key
  | IntermediateCA => main_signing_cert issuer_cert priv_key pub_key
  | Server => main_server_cert issuer_cert priv_key pub_key
  | Client => main_client_cert priv_key
  end.
(** The two messages of that statement. *)
Definition read_message (r : role) : string :=
  match r with
  | Root => "read root certificate."
  | IntermediateCA => "read signing certificate."
  | Server => "read server certificate."
  | Client => "read client certificate."
  end.

Definition create_message (r : role) : string :=
  match r with
  | Root => "Creating new root certificate."
  | IntermediateCA => "Creating new signing certificate."
  | Server => "Creating new server certificate."
  | Client => "Creating new client certificate."
  end.
(** Two states that differ at most in what the file [f] holds, [f] being
    a readable file in both. *)
Definition agree_except (f : string) (s1 s2 : State) : Prop :=
  trace s1 = trace s2 ∧ world s1 = world s2 ∧
  (∀ g, g ≠ f → fs s1 !! g = fs s2 !! g) ∧
  (∃ content, fs s1 !! f = Some (File content)) ∧
  (∃ content, fs s2 !! f = Some (File content)).

(** Run from two such states, [m1] and [m2] end in two such states, and
    either raise the same exception or return values related by [RV]. *)
Definition related {A} (f : string) (RV : A → A → Prop)
    (m1 m2 : M State A) : Prop :=
  ∀ s1 s2, agree_except f s1 s2 →
    agree_except f (m1 s1).2 (m2 s2).2 ∧
    match (m1 s1).1, (m2 s2).1 with
    | Ok a1, Ok a2 => RV a1 a2
    | Raise e1, Raise e2 => e1 = e2
    | _, _ => False
    end.
End Built.

(** ** The builders and the key statements, by role *)

Section ByRole.
Context `{Backend}.

(** The builder of the certificate of role [r]; the root and the client
    builder take the private key only. *)
Definition builder (r : role)
    (pem_issuer_cert pem_private_key pem_public_key : bytes) (days : Z)
    : M World bytes :=
  match r with
  | Root => create_root_cert pem_private_key days
  | IntermediateCA =>
      create_signing_cert pem_issuer_cert pem_private_key pem_public_key
        days
  | Server =>
      create_server_cert pem_issuer_cert pem_private_key pem_public_key days
  | Client => create_selfsigned_client_cert pem_private_key days
  end.

(** The exception of the first loader that refuses an input of that
    builder, in the order the builder loads them. *)
Definition parse_error (r : role)
    (pem_issuer_cert pem_private_key pem_public_key : bytes)
    : option exn :=
  match r with
  | Root | Client =>
      match load_pem_private_key pem_private_key None with
      | Raise e => Some e
      | Ok _ => None
      end
  | IntermediateCA | Server =>
      match load_pem_x509_certificate pem_issuer_cert with
      | Raise e => Some e
      | Ok _ =>
          match load_pem_private_key pem_private_key None with
          | Raise e => Some e
          | Ok _ =>
              match load_pem_public_key pem_public_key with
              | Raise e => Some e
              | Ok _ => None
              end
          end
      end
  end.

(** The key that builder certifies: the public key of the private key for
    the root and the client, the loaded public key for the others. *)
Definition subject_key (r : role) (pem_private_key pem_public_key : bytes)
    : option PublicKey :=
  match r with
  | Root | Client =>
      match load_pem_private_key pem_private_key None with
      | Ok key => Some (private_key_public_key key)
      | Raise _ => None
      end
  | IntermediateCA | Server =>
      match load_pem_public_key pem_public_key with
      | Ok key => Some key
      | Raise _ => None
      end
  end.

(** The key that builder signs with. *)
Definition signing_key (pem_private_key : bytes) : option PrivateKey :=
  match load_pem_private_key pem_private_key None with
  | Ok key => Some key
  | Raise _ => None
  end.


(** The two key files of a role, private key first, their slot and their
    [try] statement in [main]. *)
Definition key_files (r : role) : string * string :=
  match r with
  | Root => ("root_ca_priv_key.pem", "root_ca_pub_key.pem")
  | IntermediateCA => ("signing_ca_priv_key.pem", "signing_ca_pub_key.pem")
  | Server => ("server_priv_key.pem", "server_pub_key.pem")
  | Client => ("client_priv_key.pem", "client_pub_key.pem")
  end.

Definition key_slot (r : role) : slot :=
  match r with
  | Root => RootKeys
  | IntermediateCA => SigningKeys
  | Server => ServerKeys
  | Client => ClientKeys
  end.

Definition main_keys_statement (r : role) : M State (bytes * bytes) :=
  match r with
  | Root => main_root_ca_keys
  | IntermediateCA => main_signing_ca_keys
  | Server => main_server_keys
  | Client => main_client_keys
  end.

Definition keys_create_message (r : role) : string :=
  match r with
  | Root => "Creating new root keys."
  | IntermediateCA => "Creating new signing CA keys."
  | Server => "Creating new server keys."
  | Client => "Creating new client keys."
  end.

(** The file [main] takes the key that signs the certificate of role [r]
    from, and the file it takes the certificate's subject key from. *)
Definition signing_key_file (r : role) : string :=
  match r with
  | Root | IntermediateCA => "root_ca_priv_key.pem"
  | Server => "signing_ca_priv_key.pem"
  | Client => "client_priv_key.pem"
  end.

Definition subject_key_file (r : role) : string :=
  match r with
  | Root => "root_ca_priv_key.pem"
  | IntermediateCA => "signing_ca_pub_key.pem"
  | Server => "server_pub_key.pem"
  | Client => "client_priv_key.pem"
  end.
End ByRole.

(** ** A package and an environment that work, a store of the program's
       own making *)

(** A builder with its six attributes set: what [sign] asks for. *)
Definition complete `{KeyTypes} (b : CertificateBuilder) : Prop :=
  is_Some (b_subject_name b) ∧ is_Some (b_issuer_name b) ∧
  is_Some (b_serial_number b) ∧ is_Some (b_not_valid_before b) ∧
  is_Some (b_not_valid_after b) ∧ is_Some (b_public_key b).

(** What a run needs from the package, for the keys the program makes (RSA
    keys of 2048 bits with public exponent 65537): the PEM it writes for
    such a key it reads back as such a key, the public key of such a key
    is one a certificate can hold, such a key signs a complete builder
    with SHA-256, and the PEM it writes for a certificate it reads
    back. *)
Class BackendWorks `{Backend} : Prop := {
  private_key_reloads :
    ∀ key, rsa_parameters key = Some (65537, 2048) →
      ∃ key',
        load_pem_private_key (private_bytes key PEM PKCS8 NoEncryption) None
          = Ok key' ∧
        rsa_parameters key' = Some (65537, 2048);
  public_key_reloads :
    ∀ key, rsa_parameters key = Some (65537, 2048) →
      ∃ public_key,
        load_pem_public_key
          (public_bytes (private_key_public_key key) PEM PKCS1)
          = Ok public_key ∧
        is_certificate_public_key public_key = true;
  rsa_public_key_fits :
    ∀ key, rsa_parameters key = Some (65537, 2048) →
      is_certificate_public_key (private_key_public_key key) = true;
  rsa_key_signs :
    ∀ key tbs, rsa_parameters key = Some (65537, 2048) → complete tbs →
      ∃ sig, backend_sign key SHA256 tbs = Ok sig;
  certificate_reloads :
    ∀ c, ∃ c', load_pem_x509_certificate (certificate_public_bytes c PEM)
               = Ok c'
}.

Section Usable.
Context `{Backend}.

(** What a run needs from its environment, as a property [good] of the
    worlds it goes through: in a good world the generator returns a key,
    the clock reads a time from 1950 on and more than 365 days before the
    end of the year 9999, the serial number drawn is positive and of at
    most 159 bits, and each of these calls leaves a good world. *)
Record environment (good : World → Prop) : Prop := {
  generator_returns :
    ∀ w, good w →
      ∃ key w',
        rsa_generate_private_key 65537 2048 w = (Some key, w') ∧ good w';
  clock_in_range :
    ∀ w, good w →
      Builder.EARLY_UTC_TIME ≤ (datetime_now w).1 ∧
      (datetime_now w).1 + 365 * 86400000000 ≤ datetime_max ∧
      good (datetime_now w).2;
  serial_in_range :
    ∀ w, good w →
      0 < (random_serial_number w).1 < 2 ^ 159 ∧
      good (random_serial_number w).2
}.

(** What the program itself writes to the file [f], for the seven files
    [main] may come to parse: the three private keys it signs with, the
    two public keys and the two certificates it hands to a builder. The
    other five files are never parsed. *)
Definition own_making (f : string) (content : bytes) : Prop :=
  (f ∈ ["root_ca_priv_key.pem"; "signing_ca_priv_key.pem";
        "client_priv_key.pem"] →
   ∃ key, rsa_parameters key = Some (65537, 2048) ∧
     content = private_bytes key PEM PKCS8 NoEncryption) ∧
  (f ∈ ["signing_ca_pub_key.pem"; "server_pub_key.pem"] →
   ∃ key, rsa_parameters key = Some (65537, 2048) ∧
     content = public_bytes (private_key_public_key key) PEM PKCS1) ∧
  (f = "root_cert.pem" → ∃ days w, builds Root days w content) ∧
  (f = "signing_cert.pem" → ∃ days w, builds IntermediateCA days w content).

(** A store [main] can work with: none of the twelve names is a
    directory, and each of the seven files, when it is there, is of the
    program's own making: left by an earlier run, finished or not. Any
    of the twelve may be missing. *)
Definition usable (m : gmap string entry) : Prop :=
  ∀ k f, f ∈ slot_files k →
    match m !! f with
    | Some Directory => False
    | Some (File content) => own_making f content
    | None => True
    end.
End Usable.

(** ** A small executable backend

    Keys are numbered by the moment they were drawn; the PEM stand-ins are
    a tag byte followed by the key number in unary; a certificate's
    stand-in also carries a code for its subject, and a mark when its
    notBefore is not a whole second. Enough to run the program on
    concrete stores. *)
Module Toy.
Record toy_key : Type := mkToyKey {
  toy_exponent : Z;
  toy_bits : Z;
  toy_id : nat
}.

#[export] Instance key_types : KeyTypes := {|
  PrivateKey := toy_key;
  PublicKey := toy_key;
  Signature := nat
|}.

Definition unary (n : nat) : bytes := repeat "*"%byte n.

#[local] Instance NameOID_eq_dec : EqDecision NameOID.
Proof. solve_decision. Defined.
#[local] Instance NameAttribute_eq_dec : EqDecision NameAttribute.
Proof. solve_decision. Defined.

Definition name_code (n : Name) : byte :=
  if decide (n = [mkNameAttribute COMMON_NAME "Mothership Root"])
  then "R"%byte
  else if decide (n = [mkNameAttribute COMMON_NAME "Mothership CA1"])
  then "I"%byte
  else if decide
    (n = [mkNameAttribute ORGANIZATIONAL_UNIT_NAME "Mothership Server"])
  then "S"%byte
  else "O"%byte.

Definition code_name (b : byte) : Name :=
  match b with
  | "R"%byte => [mkNameAttribute COMMON_NAME "Mothership Root"]
  | "I"%byte => [mkNameAttribute COMMON_NAME "Mothership CA1"]
  | "S"%byte =>
      [mkNameAttribute ORGANIZATIONAL_UNIT_NAME "Mothership Server"]
  | _ => [mkNameAttribute ORGANIZATIONAL_UNIT_NAME "Random client"]
  end.

Definition load_key (tag : byte) (data : bytes) : res toy_key :=
  match data with
  | t :: rest =>
      if Byte.eqb t tag then Ok (mkToyKey 65537 2048 (length rest))
      else Raise (ValueError "Could not deserialize key data.")
  | [] => Raise (ValueError "Could not deserialize key data.")
  end.

Definition load_certificate (data : bytes) : res Certificate :=
  match data with
  | "C"%byte :: code :: rest =>
      Ok (mkCertificate (code_name code) (code_name code) 0 0 1
            (mkToyKey 65537 2048 (length rest)) [] SHA256 0%nat)
  | _ => Raise (ValueError "Unable to load certificate")
  end.

(** The mark of a time that is not a whole second. *)
Definition fraction_mark (time : datetime) : bytes :=
  if time mod 1000000 =? 0 then [] else ["."%byte].

(** The clock starts in 1997 at a quarter past a second and moves on by a
    second at each call, within a day; the serial numbers are positive. *)
#[export] Instance backend : Backend := {|
  World := nat;
  rsa_generate_private_key e n w := (Some (mkToyKey e n w), S w);
  private_key_public_key k := k;
  rsa_parameters k := Some (toy_exponent k, toy_bits k);
  is_certificate_public_key k := true;
  private_bytes k _ _ _ := "P"%byte :: unary (toy_id k);
  public_bytes k _ _ := "K"%byte :: unary (toy_id k);
  certificate_public_bytes c _ :=
    "C"%byte :: name_code (subject c) ::
      unary (toy_id (cert_public_key c)) ++
      fraction_mark (not_valid_before c);
  load_pem_private_key data _ := load_key "P"%byte data;
  load_pem_public_key data := load_key "K"%byte data;
  load_pem_x509_certificate := load_certificate;
  key_identifier_from_public_key k := unary (toy_id k);
  backend_sign k _ _ := Ok (toy_id k);
  datetime_now w :=
    (63000000000250000 + Z.of_nat w mod 86400 * 1000000, S w);
  random_serial_number w := (Z.of_nat w mod 4294967296 + 1, S w)
|}.

(** The empty working directory, before anything was printed. *)
Definition empty_state : State := mkState ∅ [] 0%nat.


(** The store a first run leaves behind. *)
Definition populated_state : State :=
  Eval vm_compute in (main empty_state).2.
(** What the runs from these states append to the trace. *)
Definition first_run_events : list event :=
  Eval vm_compute in trace (main empty_state).2.


(** A store with the root private key but not the root public key. *)
Definition half_state : State :=
  mkState
    (list_to_map
       [("root_ca_priv_key.pem", File ["P"%byte; "*"%byte; "*"%byte])])
    [] 0%nat.

Definition half_run_events : list event :=
  Eval vm_compute in trace (main half_state).2.
End Toy.


(** * Properties *)

#[local] Set Warnings "-clear-no-such-hyp".

(** The executable backend keeps the promise of [BackendSpec]. *)
Lemma toy_backend_spec : @BackendSpec Toy.key_types Toy.backend.
Proof. constructor. intros e n w k w' [= <- _]. reflexivity. Qed.

Section Facts.
Context {KT : KeyTypes} {B : Backend}.

(** ** The [try] statements of [main] are the two block shapes *)

Lemma main_root_ca_keys_block :
  main_root_ca_keys =
  keys_block "root_ca_priv_key.pem" "root_ca_pub_key.pem"
    "read root CA keys." "Creating new root keys.".
Proof. reflexivity. Qed.

Lemma cert_block_contract k file rm cm create :
  slot_files k = [file] →
  block_contract k (λ f content, ∃ w w', create w = (Ok content, w'))
    (λ v m, m !! file = Some (File v))
    (cert_block file rm cm create).
Proof.
  intros Hk s. unfold cert_block, try_except_FileNotFoundError.
  unfold mbind, M_bind, read_file, mret, M_ret, print, in_world, write_file. simpl.
  unfold present, missing. rewrite Hk.
  destruct (fs s !! file) as [[content|]|] eqn:Hf; simpl.
  - exists [EvRead file; EvPrint rm]. rewrite <- app_assoc. simpl. split; [done|].
    set_solver.
  - exists []. rewrite app_nil_r. set_solver.
  - destruct (create (world s)) as [[content|e] w'] eqn:Hc; simpl.
    + rewrite Hf. simpl. exists [EvPrint cm; EvWrite file content].
      rewrite <- app_assoc. simpl.
      split; [done|]. split; [|split].
      * intros f Hn. rewrite lookup_insert_ne; [done|]. intros ->. apply (Hn content). set_solver.
      * intros f c Hin. assert (f = file ∧ c = content) as [-> ->] by set_solver.
        rewrite lookup_insert_eq. set_solver.
      * intros v [= <-]. split; [|by rewrite lookup_insert_eq].
        intros f Hin. set_unfold in Hin. destruct Hin as [->|[]]. rewrite lookup_insert_eq; eauto.
    + exists [EvPrint cm]. set_solver.
Qed.

Ltac unfold_run :=
  unfold keys_block, cert_block, try_except_FileNotFoundError, mbind,
    M_bind, read_file, mret, M_ret, print, in_world, write_file, log;
  simpl.

Ltac in_events H :=
  set_unfold in H; repeat destruct H as [H|H]; try discriminate H;
  try contradiction.

Ltac both_written Hne Hc p q :=
  rewrite <- !app_assoc; simpl; split; [done|]; split; [|split];
  [ intros f Hn; rewrite !lookup_insert_ne; [done| |];
    intros ->; first [apply (Hn p); set_solver | apply (Hn q); set_solver]
  | intros f c Hin; in_events Hin; injection Hin as -> ->;
    [ rewrite lookup_insert_ne, lookup_insert_eq by done
    | rewrite lookup_insert_eq ];
    (split; [set_solver|]; split; [done|]; split; [set_solver|];
     do 4 eexists; split; [exact Hc|]; eauto)
  | intros v [= <-]; simpl;
    rewrite lookup_insert_ne, !lookup_insert_eq by done;
    split; [|done]; intros f Hin; in_events Hin; subst;
    [ rewrite lookup_insert_ne, lookup_insert_eq by done; eauto
    | rewrite lookup_insert_eq; eauto ] ].

Lemma keys_block_contract k priv pub rm cm :
  slot_files k = [priv; pub] → priv ≠ pub →
  block_contract k (key_pair_origin priv pub)
    (λ v m, m !! priv = Some (File v.1) ∧ m !! pub = Some (File v.2))
    (keys_block priv pub rm cm).
Proof.
  intros Hk Hne s. unfold present, missing, key_pair_origin. rewrite Hk.
  unfold_run.
  destruct (fs s !! priv) as [[p0|]|] eqn:Hpriv; simpl.
  - destruct (fs s !! pub) as [[q0|]|] eqn:Hpub; simpl.
    + exists [EvRead priv; EvRead pub; EvPrint rm].
      rewrite <- !app_assoc. simpl. split; [done|]. split; [done|].
      split.
      * intros f c Hin. in_events Hin.
      * intros v [= <-]. simpl. split; [|done].
        intros f Hin. in_events Hin; subst; eauto.
    + exists [EvRead priv]. split; [done|]. split; [done|]. split.
      * intros f c Hin. in_events Hin.
      * intros v [=].
    + destruct (create_rsa_key_pair (world s)) as [[[p q]|e] w'] eqn:Hc;
        simpl.
      * rewrite Hpriv. simpl. rewrite lookup_insert_ne, Hpub by done. simpl.
        exists [EvRead priv; EvPrint cm; EvWrite priv p; EvWrite pub q].
        both_written Hne Hc p q.
      * exists [EvRead priv; EvPrint cm]. rewrite <- !app_assoc. simpl.
        split; [done|]. split; [done|]. split.
        -- intros f c Hin. in_events Hin.
        -- intros v [=].
  - exists []. rewrite app_nil_r. split; [done|]. split; [done|]. split.
    + intros f c Hin. in_events Hin.
    + intros v [=].
  - destruct (create_rsa_key_pair (world s)) as [[[p q]|e] w'] eqn:Hc;
      simpl.
    + rewrite Hpriv. simpl. rewrite lookup_insert_ne by done.
      destruct (fs s !! pub) as [[q0|]|] eqn:Hpub; simpl.
      * exists [EvPrint cm; EvWrite priv p; EvWrite pub q].
        both_written Hne Hc p q.
      * exists [EvPrint cm; EvWrite priv p].
        rewrite <- !app_assoc. simpl. split; [done|]. split; [|split].
        -- intros f Hn. rewrite lookup_insert_ne; [done|].
           intros ->. apply (Hn p). set_solver.
        -- intros f c Hin. in_events Hin. injection Hin as -> ->.
           rewrite lookup_insert_eq.
           split; [set_solver|]. split; [done|]. split; [set_solver|].
           do 4 eexists. split; [exact Hc|]. eauto.
        -- intros v [=].
      * exists [EvPrint cm; EvWrite priv p; EvWrite pub q].
        both_written Hne Hc p q.
    + exists [EvPrint cm]. split; [done|]. split; [done|]. split.
      * intros f c Hin. in_events Hin.
      * intros v [=].
Qed.

(** ** The ledger of a run *)

Lemma slot_files_disjoint k1 k2 f :
  f ∈ slot_files k1 → f ∈ slot_files k2 → k1 = k2.
Proof.
  destruct k1, k2; simpl; intros H1 H2; try reflexivity;
    exfalso; in_events H1; subst; in_events H2.
Qed.

Lemma contract_frame {A} k G V (blk : M State A) s f :
  block_contract k G V blk →
  f ∉ slot_files k → fs (blk s).2 !! f = fs s !! f.
Proof.
  intros C Hf. destruct (C s) as (evs & _ & Hun & Hwr & _).
  apply Hun. intros content Hin. apply Hf. by apply (Hwr f content).
Qed.

Lemma origin_stable k f content m m' :
  origin k f content m →
  (∀ k' f', (slot_rank k' < slot_rank k)%nat → f' ∈ slot_files k' →
            m' !! f' = m !! f') →
  origin k f content m'.
Proof.
  intros Ho Hm.
  assert (Hrk : ∀ f', f' ∈ slot_files RootKeys →
                      (0 < slot_rank k)%nat → m' !! f' = m !! f').
  { intros f' Hf' Hlt. by apply (Hm RootKeys). }
  assert (Hrc : ∀ f', f' ∈ slot_files RootCert →
                      (1 < slot_rank k)%nat → m' !! f' = m !! f').
  { intros f' Hf' Hlt. by apply (Hm RootCert). }
  assert (Hsk : ∀ f', f' ∈ slot_files SigningKeys →
                      (2 < slot_rank k)%nat → m' !! f' = m !! f').
  { intros f' Hf' Hlt. by apply (Hm SigningKeys). }
  assert (Hsc : ∀ f', f' ∈ slot_files SigningCert →
                      (3 < slot_rank k)%nat → m' !! f' = m !! f').
  { intros f' Hf' Hlt. by apply (Hm SigningCert). }
  assert (Hvk : ∀ f', f' ∈ slot_files ServerKeys →
                      (4 < slot_rank k)%nat → m' !! f' = m !! f').
  { intros f' Hf' Hlt. by apply (Hm ServerKeys). }
  assert (Hck : ∀ f', f' ∈ slot_files ClientKeys →
                      (6 < slot_rank k)%nat → m' !! f' = m !! f').
  { intros f' Hf' Hlt. by apply (Hm ClientKeys). }
  destruct k; simpl in *; try exact Ho.
  - destruct Ho as (key & w & w' & Hkey & Hrun).
    exists key, w, w'. rewrite Hrk by first [lia | set_solver]. done.
  - destruct Ho as (rc & key & pub & w & w' & H1 & H2 & H3 & Hrun).
    exists rc, key, pub, w, w'.
    rewrite Hrc, Hrk, Hsk by first [lia | set_solver]. done.
  - destruct Ho as (sc & key & pub & w & w' & H1 & H2 & H3 & Hrun).
    exists sc, key, pub, w, w'.
    rewrite Hsc, Hsk, Hvk by first [lia | set_solver]. done.
  - destruct Ho as (key & w & w' & Hkey & Hrun).
    exists key, w, w'. rewrite Hck by first [lia | set_solver]. done.
Qed.

Lemma ledger_mono s0 n n' s :
  (n ≤ n')%nat → ledger s0 n s → ledger s0 n' s.
Proof.
  intros Hle (evs & Htr & Hun & Hwr). exists evs.
  split; [done|]. split; [done|].
  intros f content Hin. destruct (Hwr f content Hin) as (Hf & k & Hk).
  split; [done|]. exists k. intuition lia.
Qed.

Lemma ledger_start s0 : reached s0 0 s0.
Proof.
  split; [|intros k' Hlt; lia].
  exists []. unfold run_events. rewrite app_nil_r.
  split; [done|]. split; [done|]. intros f c Hin. in_events Hin.
Qed.

Lemma block_step {A} k G V (blk : M State A) s0 s r s' :
  block_contract k G V blk →
  blk s = (r, s') →
  reached s0 (slot_rank k) s →
  (∀ f content m',
      G f content →
      (∀ f', f' ∉ slot_files k → m' !! f' = fs s !! f') →
      origin k f content m') →
  ledger s0 (S (slot_rank k)) s' ∧
  (∀ f, f ∉ slot_files k → fs s' !! f = fs s !! f) ∧
  (∀ v, r = Ok v → reached s0 (S (slot_rank k)) s' ∧ V v (fs s')).
Proof.
  intros C Hrun [(evs0 & Htr0 & Hun0 & Hwr0) Hpres] Hor.
  assert (Hframe : ∀ f, f ∉ slot_files k → fs s' !! f = fs s !! f).
  { intros f Hf. pose proof (contract_frame k G V blk s f C Hf) as Hfr.
    by rewrite Hrun in Hfr. }
  destruct (C s) as (evs & Htr & Hun & Hwr & Hok).
  rewrite Hrun in Htr, Hun, Hwr, Hok. simpl in *.
  assert (Hother : ∀ k' f, k' ≠ k → f ∈ slot_files k' →
                           fs s' !! f = fs s !! f).
  { intros k' f Hne Hf. apply Hframe. intros Hf'.
    apply Hne. by apply (slot_files_disjoint _ _ f). }
  assert (Hpres' : ∀ k', (slot_rank k' < slot_rank k)%nat →
                         present k' (fs s')).
  { intros k' Hlt f Hf. rewrite (Hother k'); [by apply (Hpres k')| |done].
    intros ->. lia. }
  assert (Hled : ledger s0 (S (slot_rank k)) s').
  { exists (evs0 ++ evs). split.
    { unfold run_events in *. by rewrite Htr, Htr0, app_assoc. }
    split.
    - intros f Hn. rewrite Hun, Hun0; [done| |].
      + intros c Hin. apply (Hn c). set_solver.
      + intros c Hin. apply (Hn c). set_solver.
    - intros f c Hin. apply elem_of_app in Hin as [Hin|Hin].
      + destruct (Hwr0 f c Hin) as (Hf & k0 & Hk0 & Hlt & Hmiss & Hp & Ho).
        assert (k0 ≠ k) by (intros ->; lia).
        split; [by rewrite (Hother k0)|].
        exists k0. split; [done|]. split; [lia|]. split; [done|].
        split.
        * intros k' Hlt' f' Hf'. rewrite (Hother k'); [by apply (Hp k')| |done].
          intros ->. lia.
        * apply (origin_stable k0 f c (fs s)); [done|].
          intros k' f' Hlt' Hf'. apply (Hother k'); [|done].
          intros ->. lia.
      + destruct (Hwr f c Hin) as (Hf & Hc & (f1 & Hf1 & Hnone) & HG).
        split; [done|]. exists k. split; [done|]. split; [lia|].
        split; [|split].
        * exists f1. split; [done|]. rewrite <- Hun0; [done|].
          intros c1 Hin1.
          destruct (Hwr0 f1 c1 Hin1) as (_ & k0 & Hk0 & Hlt & _).
          assert (k0 = k) as -> by by apply (slot_files_disjoint _ _ f1).
          lia.
        * done.
        * by apply Hor. }
  split; [done|]. split; [done|].
  intros v ->. destruct (Hok v eq_refl) as [Hp HV].
  split; [|done]. split; [done|].
  intros k' Hlt. destruct (decide (slot_rank k' = slot_rank k)) as [Heq|Hne].
  - assert (k' = k) as -> by (destruct k', k; simpl in *; done || lia).
    done.
  - apply Hpres'. lia.
Qed.

Ltac stopped L :=
  simpl; split;
  [ eapply ledger_mono; [|exact L]; simpl; lia | intros [=] ].

Ltac keeps F :=
  rewrite F by (simpl; set_solver); assumption.

Lemma main_ledger s0 :
  ledger s0 8 (main s0).2 ∧
  ((main s0).1 = Ok () → ∀ k, present k (fs (main s0).2)).
Proof.
  unfold main, mbind, M_bind.
  pose proof (ledger_start s0) as R0.
  (* root keys *)
  destruct (main_root_ca_keys s0) as [r s1] eqn:E1.
  destruct (block_step RootKeys _ _ _ s0 s0 _ _
              (keys_block_contract RootKeys _ _ _ _ eq_refl ltac:(done))
              E1 R0) as (L1 & F1 & K1).
  { intros f c m' HG _. exact HG. }
  destruct r as [[root_ca_priv_key root_ca_pub_key]|e]; [|stopped L1].
  destruct (K1 _ eq_refl) as [R1 [Vrk _]]. simpl in Vrk. clear K1.
  (* root certificate *)
  destruct (main_root_cert root_ca_priv_key s1) as [r s2] eqn:E2.
  destruct (block_step RootCert _ _ _ s0 s1 _ _
              (cert_block_contract RootCert _ _ _ _ eq_refl)
              E2 R1) as (L2 & F2 & K2).
  { intros f c m' (w & w' & Hc) Hm'. exists root_ca_priv_key, w, w'.
    split; [|done]. rewrite Hm' by (simpl; set_solver). done. }
  destruct r as [root_cert|e]; [|stopped L2].
  destruct (K2 _ eq_refl) as [R2 Vrc]. simpl in Vrc. clear K2.
  assert (Vrk2 : fs s2 !! "root_ca_priv_key.pem"
                 = Some (File root_ca_priv_key)) by keeps F2.
  (* signing keys *)
  destruct (main_signing_ca_keys s2) as [r s3] eqn:E3.
  destruct (block_step SigningKeys _ _ _ s0 s2 _ _
              (keys_block_contract SigningKeys _ _ _ _ eq_refl ltac:(done))
              E3 R2) as (L3 & F3 & K3).
  { intros f c m' HG _. exact HG. }
  destruct r as [[signing_ca_priv_key signing_ca_pub_key]|e];
    [|stopped L3].
  destruct (K3 _ eq_refl) as [R3 [Vsk Vsp]]. simpl in Vsk, Vsp. clear K3.
  assert (Vrk3 : fs s3 !! "root_ca_priv_key.pem"
                 = Some (File root_ca_priv_key)) by keeps F3.
  assert (Vrc3 : fs s3 !! "root_cert.pem" = Some (File root_cert))
    by keeps F3.
  (* signing certificate *)
  destruct (main_signing_cert root_cert root_ca_priv_key
              signing_ca_pub_key s3) as [r s4] eqn:E4.
  destruct (block_step SigningCert _ _ _ s0 s3 _ _
              (cert_block_contract SigningCert _ _ _ _ eq_refl)
              E4 R3) as (L4 & F4 & K4).
  { intros f c m' (w & w' & Hc) Hm'.
    exists root_cert, root_ca_priv_key, signing_ca_pub_key, w, w'.
    rewrite !Hm' by (simpl; set_solver). done. }
  destruct r as [signing_cert|e]; [|stopped L4].
  destruct (K4 _ eq_refl) as [R4 Vsc]. simpl in Vsc. clear K4.
  assert (Vsk4 : fs s4 !! "signing_ca_priv_key.pem"
                 = Some (File signing_ca_priv_key)) by keeps F4.
  (* server keys *)
  destruct (main_server_keys s4) as [r s5] eqn:E5.
  destruct (block_step ServerKeys _ _ _ s0 s4 _ _
              (keys_block_contract ServerKeys _ _ _ _ eq_refl ltac:(done))
              E5 R4) as (L5 & F5 & K5).
  { intros f c m' HG _. exact HG. }
  destruct r as [[server_priv_key server_pub_key]|e]; [|stopped L5].
  destruct (K5 _ eq_refl) as [R5 [_ Vvp]]. simpl in Vvp. clear K5.
  assert (Vsk5 : fs s5 !! "signing_ca_priv_key.pem"
                 = Some (File signing_ca_priv_key)) by keeps F5.
  assert (Vsc5 : fs s5 !! "signing_cert.pem" = Some (File signing_cert))
    by keeps F5.
  (* server certificate *)
  destruct (main_server_cert signing_cert signing_ca_priv_key
              server_pub_key s5) as [r s6] eqn:E6.
  destruct (block_step ServerCert _ _ _ s0 s5 _ _
              (cert_block_contract ServerCert _ _ _ _ eq_refl)
              E6 R5) as (L6 & F6 & K6).
  { intros f c m' (w & w' & Hc) Hm'.
    exists signing_cert, signing_ca_priv_key, server_pub_key, w, w'.
    rewrite !Hm' by (simpl; set_solver). done. }
  destruct r as [server_cert|e]; [|stopped L6].
  destruct (K6 _ eq_refl) as [R6 _]. clear K6.
  (* client keys *)
  destruct (main_client_keys s6) as [r s7] eqn:E7.
  destruct (block_step ClientKeys _ _ _ s0 s6 _ _
              (keys_block_contract ClientKeys _ _ _ _ eq_refl ltac:(done))
              E7 R6) as (L7 & F7 & K7).
  { intros f c m' HG _. exact HG. }
  destruct r as [[client_priv_key client_pub_key]|e]; [|stopped L7].
  destruct (K7 _ eq_refl) as [R7 [Vck _]]. simpl in Vck. clear K7.
  (* client certificate *)
  destruct (main_client_cert client_priv_key s7) as [r s8] eqn:E8.
  destruct (block_step ClientCert _ _ _ s0 s7 _ _
              (cert_block_contract ClientCert _ _ _ _ eq_refl)
              E8 R7) as (L8 & F8 & K8).
  { intros f c m' (w & w' & Hc) Hm'. exists client_priv_key, w, w'.
    rewrite Hm' by (simpl; set_solver). done. }
  destruct r as [client_cert|e]; [|stopped L8].
  destruct (K8 _ eq_refl) as [[_ P8] _]. simpl.
  split; [exact L8|]. intros _ k. apply P8.
  destruct k; simpl; lia.
Qed.

(** ** What each builder returns *)

Lemma timedelta_days days :
  timedelta days 0 0 =
  if (-999999999 <=? days) && (days <=? 999999999)
  then Ok (days * 86400000000)
  else Raise (OverflowError "days; must have magnitude <= 999999999").
Proof.
  unfold timedelta. cbv zeta.
  replace (days * 86400000000 + 0 * 1000000 + 0) with (days * 86400000000)
    by lia.
  by rewrite Z.div_mul by lia.
Qed.

Lemma whole_seconds_days time days :
  whole_seconds (time + days * 86400000000) =
  whole_seconds time + days * 86400000000.
Proof.
  unfold whole_seconds.
  replace (time + days * 86400000000)
    with (time + days * 86400 * 1000000) by lia.
  rewrite Z.div_add by lia. lia.
Qed.


(** What [_cert_helper] does, step by step: the clock is read first; a
    validity that does not fit stops it before a serial number is
    drawn. *)
Lemma cert_helper_run public_key subject_dn issuer_dn days w :
  _cert_helper public_key subject_dn issuer_dn days w =
  let now := (datetime_now w).1 in
  let w1 := (datetime_now w).2 in
  let serial := (random_serial_number w1).1 in
  let w2 := (random_serial_number w1).2 in
  match timedelta days 0 0 with
  | Raise e => (Raise e, w1)
  | Ok delta =>
      match datetime_add now delta with
      | Raise e => (Raise e, w1)
      | Ok validity_end =>
          match
            Builder.not_valid_before
              (mkBuilder (Some issuer_dn) (Some subject_dn) None None None
                 None []) now
          with
          | Raise e => (Raise e, w1)
          | Ok b1 =>
              match Builder.not_valid_after b1 validity_end with
              | Raise e => (Raise e, w1)
              | Ok b2 =>
                  match Builder.serial_number b2 serial with
                  | Raise e => (Raise e, w2)
                  | Ok b3 =>
                      match Builder.public_key b3 public_key with
                      | Raise e => (Raise e, w2)
                      | Ok b4 => (Ok b4, w2)
                      end
                  end
              end
          end
      end
  end.
Proof.
  unfold _cert_helper.
  cbv beta iota zeta
    delta [mbind M_bind lift call mret M_ret Builder.new
           Builder.subject_name Builder.issuer_name b_subject_name
           b_issuer_name b_public_key b_serial_number b_not_valid_before
           b_not_valid_after b_extensions].
  destruct (datetime_now w) as [now w1]. cbv beta iota zeta delta [fst snd].
  destruct (timedelta days 0 0) as [delta|e]; [|reflexivity].
  destruct (datetime_add now delta) as [validity_end|e]; [|reflexivity].
  match goal with
  | |- context [Builder.not_valid_before ?b ?t] =>
      destruct (Builder.not_valid_before b t) as [b1|e]; [|reflexivity]
  end.
  destruct (Builder.not_valid_after b1 validity_end) as [b2|e];
    [|reflexivity].
  destruct (random_serial_number w1) as [serial w2].
  cbv beta iota zeta delta [fst snd].
  destruct (Builder.serial_number b2 serial) as [b3|e]; [|reflexivity].
  by destruct (Builder.public_key b3 public_key) as [b4|e].
Qed.

(** When it returns, the builder holds the names, the key, the clock
    reading, that reading [days] days later and the serial number, and
    each has passed its check. *)
Lemma cert_helper_inv public_key subject_dn issuer_dn days w b w' :
  _cert_helper public_key subject_dn issuer_dn days w = (Ok b, w') →
  let now := (datetime_now w).1 in
  let serial := (random_serial_number (datetime_now w).2).1 in
  b = mkBuilder (Some issuer_dn) (Some subject_dn) (Some public_key)
        (Some serial) (Some now) (Some (now + days * 86400000000)) [] ∧
  w' = (random_serial_number (datetime_now w).2).2 ∧
  0 ≤ days ≤ 999999999 ∧
  Builder.EARLY_UTC_TIME ≤ now ∧ now + days * 86400000000 ≤ datetime_max ∧
  0 < serial < 2 ^ 159 ∧
  is_certificate_public_key public_key = true.
Proof.
  rewrite cert_helper_run, timedelta_days. cbv zeta.
  set (now := (datetime_now w).1). set (w1 := (datetime_now w).2).
  set (serial := (random_serial_number w1).1).
  set (w2 := (random_serial_number w1).2).
  destruct ((-999999999 <=? days) && (days <=? 999999999)) eqn:Hd; [|done].
  unfold datetime_add.
  destruct ((0 <=? now + days * 86400000000) &&
            (now + days * 86400000000 <=? datetime_max)) eqn:He; [|done].
  unfold Builder.not_valid_before, Builder.not_valid_after,
    Builder.serial_number, Builder.public_key.
  cbv beta iota zeta
    delta [b_subject_name b_issuer_name b_public_key b_serial_number
           b_not_valid_before b_not_valid_after b_extensions].
  destruct (now <? Builder.EARLY_UTC_TIME) eqn:H1; [done|].
  destruct (now + days * 86400000000 <? Builder.EARLY_UTC_TIME) eqn:H2;
    [done|].
  destruct (now + days * 86400000000 <? now) eqn:H3; [done|].
  destruct (serial <=? 0) eqn:H4; [done|].
  destruct (2 ^ 159 <=? serial) eqn:H5; [done|].
  destruct (is_certificate_public_key public_key) eqn:H6; [|done].
  intros [= <- <-].
  apply andb_true_iff in Hd as [Hd1 Hd2], He as [He1 He2].
  split; [done|]. split; [done|]. lia.
Qed.

Lemma add_extension_run iss subj pk ser nvb nva exts extension critical :
  existsb (λ e, bool_decide (ext_oid (ext_value e) = ext_oid extension))
    exts = false →
  Builder.add_extension (mkBuilder iss subj pk ser nvb nva exts) extension
    critical =
  Ok (mkBuilder iss subj pk ser nvb nva
        (exts ++ [mkExtension extension critical])).
Proof. intros Hnew. unfold Builder.add_extension. simpl. by rewrite Hnew. Qed.

Lemma sign_run iss subj pk ser nvb nva exts key :
  Builder.sign
    (mkBuilder (Some iss) (Some subj) (Some pk) (Some ser) (Some nvb)
       (Some nva) exts) key SHA256 =
  match
    backend_sign key SHA256
      (mkBuilder (Some iss) (Some subj) (Some pk) (Some ser) (Some nvb)
         (Some nva) exts)
  with
  | Ok sig =>
      Ok (mkCertificate subj iss (whole_seconds nvb) (whole_seconds nva)
            ser pk exts SHA256 sig)
  | Raise e => Raise e
  end.
Proof. reflexivity. Qed.

(* a builder after its inputs have loaded and [_cert_helper] has returned:
   the extensions are added, none twice, and the certificate is signed *)
Ltac finish_builder Hh :=
  apply cert_helper_inv in Hh as (-> & -> & _);
  cbv beta iota zeta delta [mbind M_bind lift mret M_ret];
  repeat (rewrite add_extension_run by reflexivity; cbv beta iota);
  rewrite sign_run;
  match goal with
  | |- context [backend_sign ?k ?a ?b] =>
      let Hsig := fresh "Hsig" in
      destruct (backend_sign k a b) as [sig|e] eqn:Hsig; [|done];
      intros [= <- <-]; unfold certificate_of;
      repeat eexists; try eassumption;
      cbv beta iota delta [subject issuer not_valid_before not_valid_after
                           serial_number cert_public_key extensions
                           signature_hash_algorithm signature];
      by rewrite ?whole_seconds_days
  end.

Lemma create_root_cert_inv pem days w content w' :
  create_root_cert pem days w = (Ok content, w') →
  ∃ private_key c,
    load_pem_private_key pem None = Ok private_key ∧
    content = certificate_public_bytes c PEM ∧
    certificate_of c ROOT_DN ROOT_DN (private_key_public_key private_key)
      private_key w days
      [mkExtension (BasicConstraints true None) true;
       mkExtension (KeyUsageExt CA_KEYUSAGE) true;
       mkExtension (AuthorityKeyIdentifier_from_issuer_public_key
                      (private_key_public_key private_key)) false;
       mkExtension (SubjectKeyIdentifier_from_public_key
                      (private_key_public_key private_key)) false].
Proof.
  unfold create_root_cert.
  cbv beta iota zeta delta [mbind M_bind lift].
  destruct (load_pem_private_key pem None) as [private_key|e] eqn:Hload;
    [|done].
  destruct (_cert_helper _ _ _ _ w) as [[b|e] w1] eqn:Hh; [|done].
  finish_builder Hh.
Qed.

Lemma create_selfsigned_client_cert_inv pem days w content w' :
  create_selfsigned_client_cert pem days w = (Ok content, w') →
  ∃ private_key c,
    load_pem_private_key pem None = Ok private_key ∧
    content = certificate_public_bytes c PEM ∧
    certificate_of c CLIENT_DN CLIENT_DN
      (private_key_public_key private_key) private_key w days
      [mkExtension
         (SubjectAlternativeName
            [DirectoryName [mkNameAttribute SERIAL_NUMBER "device_0001"]])
         true;
       mkExtension (BasicConstraints false None) true;
       mkExtension (KeyUsageExt SELFSIGNED_ENTITY_KEYUSAGE) true;
       mkExtension CLIENT_EXTKEYUSAGE true;
       mkExtension (AuthorityKeyIdentifier_from_issuer_public_key
                      (private_key_public_key private_key)) false;
       mkExtension (SubjectKeyIdentifier_from_public_key
                      (private_key_public_key private_key)) false].
Proof.
  unfold create_selfsigned_client_cert.
  cbv beta iota zeta delta [mbind M_bind lift].
  destruct (load_pem_private_key pem None) as [private_key|e] eqn:Hload;
    [|done].
  destruct (_cert_helper _ _ _ _ w) as [[b|e] w1] eqn:Hh; [|done].
  finish_builder Hh.
Qed.

Lemma create_signing_cert_inv pem_issuer pem_priv pem_pub days w
    content w' :
  create_signing_cert pem_issuer pem_priv pem_pub days w
    = (Ok content, w') →
  ∃ issuer_cert private_key public_key c,
    load_pem_x509_certificate pem_issuer = Ok issuer_cert ∧
    load_pem_private_key pem_priv None = Ok private_key ∧
    load_pem_public_key pem_pub = Ok public_key ∧
    content = certificate_public_bytes c PEM ∧
    certificate_of c INTERMEDIATE_DN (subject issuer_cert) public_key
      private_key w days
      [mkExtension (BasicConstraints true (Some 0)) true;
       mkExtension (KeyUsageExt CA_KEYUSAGE) true;
       mkExtension (AuthorityKeyIdentifier_from_issuer_public_key
                      (cert_public_key issuer_cert)) false;
       mkExtension (SubjectKeyIdentifier_from_public_key public_key)
         false].
Proof.
  unfold create_signing_cert.
  cbv beta iota zeta delta [mbind M_bind lift].
  destruct (load_pem_x509_certificate pem_issuer) as [issuer_cert|e]
    eqn:Hissuer; [|done].
  destruct (load_pem_private_key pem_priv None) as [private_key|e]
    eqn:Hload; [|done].
  destruct (load_pem_public_key pem_pub) as [public_key|e] eqn:Hpub;
    [|done].
  destruct (_cert_helper _ _ _ _ w) as [[b|e] w1] eqn:Hh; [|done].
  finish_builder Hh.
Qed.

Lemma create_server_cert_inv pem_issuer pem_priv pem_pub days w
    content w' :
  create_server_cert pem_issuer pem_priv pem_pub days w
    = (Ok content, w') →
  ∃ issuer_cert private_key public_key c,
    load_pem_x509_certificate pem_issuer = Ok issuer_cert ∧
    load_pem_private_key pem_priv None = Ok private_key ∧
    load_pem_public_key pem_pub = Ok public_key ∧
    content = certificate_public_bytes c PEM ∧
    certificate_of c SERVER_DN (subject issuer_cert) public_key
      private_key w days
      [mkExtension (SubjectAlternativeName [DNSName "mothership_server"])
         true;
       mkExtension (BasicConstraints false None) true;
       mkExtension (KeyUsageExt ENTITY_KEYUSAGE) true;
       mkExtension SERVER_EXTKEYUSAGE true;
       mkExtension (AuthorityKeyIdentifier_from_issuer_public_key
                      (cert_public_key issuer_cert)) false;
       mkExtension (SubjectKeyIdentifier_from_public_key public_key)
         false].
Proof.
  unfold create_server_cert.
  cbv beta iota zeta delta [mbind M_bind lift].
  destruct (load_pem_x509_certificate pem_issuer) as [issuer_cert|e]
    eqn:Hissuer; [|done].
  destruct (load_pem_private_key pem_priv None) as [private_key|e]
    eqn:Hload; [|done].
  destruct (load_pem_public_key pem_pub) as [public_key|e] eqn:Hpub;
    [|done].
  destruct (_cert_helper _ _ _ _ w) as [[b|e] w1] eqn:Hh; [|done].
  finish_builder Hh.
Qed.

(** ** The certificates, role by role *)

Ltac inv_builds Hb :=
  match type of Hb with builds ?r _ _ _ => destruct r; simpl in Hb end;
  [ destruct Hb as (pem & w' & Hb);
    apply create_root_cert_inv in Hb as (key & c & Hload & -> & Hc)
  | destruct Hb as (pem_i & pem & pem_p & w' & Hb);
    apply create_signing_cert_inv in Hb
      as (issuer_cert & key & pub & c & Hli & Hload & Hlp & -> & Hc)
  | destruct Hb as (pem_i & pem & pem_p & w' & Hb);
    apply create_server_cert_inv in Hb
      as (issuer_cert & key & pub & c & Hli & Hload & Hlp & -> & Hc)
  | destruct Hb as (pem & w' & Hb);
    apply create_selfsigned_client_cert_inv in Hb
      as (key & c & Hload & -> & Hc) ];
  match goal with
  | Hcert : certificate_of _ _ _ _ _ _ _ _ |- _ =>
      destruct Hcert
        as (Hsubj & Hiss & Hnvb & Hnva & Hser & Hpk & Hext & Halg & Hsig)
  end.

(** C4. BasicConstraints are fixed per role: whatever the builder of a
    role is called with, the certificate it returns has [ca = true] for
    the root and the intermediate and [ca = false] for the server and the
    client; the path length is unset for the root (and the leaves) and
    exactly 0 for the intermediate. *)
Theorem basic_constraints_per_role r days w content :
  builds r days w content →
  ∃ c, content = certificate_public_bytes c PEM ∧
    ext_value <$> get_extension_for_oid (extensions c) BASIC_CONSTRAINTS =
    Some (match r with
          | Root => BasicConstraints true None
          | IntermediateCA => BasicConstraints true (Some 0)
          | Server | Client => BasicConstraints false None
          end).
Proof.
  intros Hb. inv_builds Hb; exists c; (split; [done|]);
    rewrite Hext; reflexivity.
Qed.


(** C6. In every certificate a builder returns the extensions are, in
    order, BasicConstraints, KeyUsage, AuthorityKeyIdentifier and
    SubjectKeyIdentifier for the root and the intermediate, and
    SubjectAlternativeName, BasicConstraints, KeyUsage, ExtendedKeyUsage,
    AuthorityKeyIdentifier and SubjectKeyIdentifier for the server and the
    client; each one is critical, except the two key identifiers, which
    are not. *)
Theorem extension_criticality r days w content :
  builds r days w content →
  ∃ c, content = certificate_public_bytes c PEM ∧
    ((λ e, ext_oid (ext_value e)) <$> extensions c) =
      match r with
      | Root | IntermediateCA =>
          [BASIC_CONSTRAINTS; KEY_USAGE;
           AUTHORITY_KEY_IDENTIFIER; SUBJECT_KEY_IDENTIFIER]
      | Server | Client =>
          [SUBJECT_ALTERNATIVE_NAME; BASIC_CONSTRAINTS; KEY_USAGE;
           EXTENDED_KEY_USAGE;
           AUTHORITY_KEY_IDENTIFIER; SUBJECT_KEY_IDENTIFIER]
      end ∧
    ∀ e, e ∈ extensions c →
      ext_critical e =
        match ext_oid (ext_value e) with
        | BASIC_CONSTRAINTS | KEY_USAGE
        | SUBJECT_ALTERNATIVE_NAME | EXTENDED_KEY_USAGE => true
        | AUTHORITY_KEY_IDENTIFIER | SUBJECT_KEY_IDENTIFIER => false
        end.
Proof.
  intros Hb. inv_builds Hb; exists c; (split; [done|]);
    rewrite Hext; (split; [reflexivity|]);
    intros e He; in_events He; subst e; reflexivity.
Qed.

(** ** What a run of [main] writes *)

Lemma main_writes_ledger s0 f content :
  main_writes s0 f content →
  fs (main s0).2 !! f = Some (File content) ∧
  ∃ k, f ∈ slot_files k ∧ missing k (fs s0) ∧
       (∀ k', (slot_rank k' < slot_rank k)%nat →
              present k' (fs (main s0).2)) ∧
       origin k f content (fs (main s0).2).
Proof.
  intros (evs & Htr & Hin).
  destruct (main_ledger s0) as [(evs' & Htr' & _ & Hwr) _].
  unfold run_events in Htr'. rewrite Htr in Htr'.
  apply app_inv_head in Htr' as <-.
  destruct (Hwr f content Hin) as (Hf & k & Hk & _ & Hmiss & Hp & Ho).
  split; [done|]. by exists k.
Qed.

Lemma cert_file_slot r : cert_file r ∈ slot_files (cert_slot r).
Proof. destruct r; simpl; set_solver. Qed.

Lemma main_writes_cert s0 r content :
  main_writes s0 (cert_file r) content →
  origin (cert_slot r) (cert_file r) content (fs (main s0).2).
Proof.
  intros Hw. apply main_writes_ledger in Hw as (_ & k & Hk & _ & _ & Ho).
  by rewrite <- (slot_files_disjoint _ _ _ Hk (cert_file_slot r)).
Qed.

Lemma main_writes_builds s0 r content :
  main_writes s0 (cert_file r) content →
  ∃ w, builds r (requested_days r) w content.
Proof.
  intros Hw. apply main_writes_cert in Hw.
  destruct r; simpl in *.
  - destruct Hw as (key & w & w' & _ & Hc). exists w. eauto.
  - destruct Hw as (ic & key & pub & w & w' & _ & _ & _ & Hc).
    exists w. eauto 6.
  - destruct Hw as (ic & key & pub & w & w' & _ & _ & _ & Hc).
    exists w. eauto 6.
  - destruct Hw as (key & w & w' & _ & Hc). exists w. eauto.
Qed.

(** C1. For every certificate a run of [main] builds: the
    SubjectKeyIdentifier is the identifier of the certificate's own
    public key; the root and the client certificate have their own
    subject as issuer and an AuthorityKeyIdentifier equal to their
    SubjectKeyIdentifier; the intermediate certificate has as issuer the
    subject of the certificate in root_cert.pem and as
    AuthorityKeyIdentifier the identifier of that certificate's public
    key, and the server certificate likewise with signing_cert.pem. *)
Theorem issuer_and_key_identifiers s0 r content :
  main_writes s0 (cert_file r) content →
  ∃ c, content = certificate_public_bytes c PEM ∧
    subject_key_identifier (extensions c) =
      Some (key_identifier_from_public_key (cert_public_key c)) ∧
    match r with
    | Root | Client =>
        issuer c = subject c ∧
        authority_key_identifier (extensions c) =
          Some (key_identifier_from_public_key (cert_public_key c)) ∧
        authority_key_identifier (extensions c) =
          subject_key_identifier (extensions c)
    | IntermediateCA =>
        ∃ pem signer,
          fs (main s0).2 !! "root_cert.pem" = Some (File pem) ∧
          load_pem_x509_certificate pem = Ok signer ∧
          issuer c = subject signer ∧
          authority_key_identifier (extensions c) =
            Some (key_identifier_from_public_key (cert_public_key signer))
    | Server =>
        ∃ pem signer,
          fs (main s0).2 !! "signing_cert.pem" = Some (File pem) ∧
          load_pem_x509_certificate pem = Ok signer ∧
          issuer c = subject signer ∧
          authority_key_identifier (extensions c) =
            Some (key_identifier_from_public_key (cert_public_key signer))
    end.
Proof.
  intros Hw. apply main_writes_cert in Hw.
  destruct r; simpl in Hw.
  - destruct Hw as (key & w & w' & _ & Hc).
    apply create_root_cert_inv in Hc
      as (pk & c & _ & -> & Hs & Hi & _ & _ & _ & Hpk & Hext & _).
    exists c. split; [done|]. rewrite Hext, Hpk, Hs, Hi. done.
  - destruct Hw as (ic & key & pub & w & w' & Hfile & _ & _ & Hc).
    apply create_signing_cert_inv in Hc
      as (signer & pk & pubk & c & Hl & _ & _ & -> &
          Hs & Hi & _ & _ & _ & Hpk & Hext & _).
    exists c. split; [done|]. rewrite Hext, Hpk, Hi.
    split; [done|]. by exists ic, signer.
  - destruct Hw as (ic & key & pub & w & w' & Hfile & _ & _ & Hc).
    apply create_server_cert_inv in Hc
      as (signer & pk & pubk & c & Hl & _ & _ & -> &
          Hs & Hi & _ & _ & _ & Hpk & Hext & _).
    exists c. split; [done|]. rewrite Hext, Hpk, Hi.
    split; [done|]. by exists ic, signer.
  - destruct Hw as (key & w & w' & _ & Hc).
    apply create_selfsigned_client_cert_inv in Hc
      as (pk & c & _ & -> & Hs & Hi & _ & _ & _ & Hpk & Hext & _).
    exists c. split; [done|]. rewrite Hext, Hpk, Hs, Hi. done.
Qed.

(** ** Key pairs *)

(** C8. [create_rsa_key_pair] takes no argument. Whenever the backend's
    generator, asked for the public exponent 65537 and 2048 bits, returns
    a key, that key is an RSA key with public exponent 65537 and a
    2048-bit modulus, and the function returns its unencrypted PKCS#8 PEM
    encoding together with the PKCS#1 PEM encoding of its public key;
    the function raises only when the generator does. *)
Theorem key_pair_parameters `{!BackendSpec} (w : World) :
  match rsa_generate_private_key 65537 2048 w with
  | (Some key, w') =>
      rsa_parameters key = Some (65537, 2048) ∧
      create_rsa_key_pair w =
        (Ok (private_bytes key PEM PKCS8 NoEncryption,
             public_bytes (private_key_public_key key) PEM PKCS1), w')
  | (None, w') =>
      create_rsa_key_pair w =
        (Raise (InternalError "generate_private_key"), w')
  end.
Proof.
  unfold create_rsa_key_pair, mbind, M_bind, call_opt.
  destruct (rsa_generate_private_key 65537 2048 w) as [[key|] w'] eqn:Hg;
    [|done].
  split; [|done]. by apply (rsa_generate_parameters _ _ w key w').
Qed.

(** ** The [try] statements, case by case *)

Lemma main_root_cert_block key :
  main_root_cert key =
  cert_block "root_cert.pem" "read root certificate."
    "Creating new root certificate." (create_root_cert key 365).
Proof. reflexivity. Qed.

Lemma main_signing_ca_keys_block :
  main_signing_ca_keys =
  keys_block "signing_ca_priv_key.pem" "signing_ca_pub_key.pem"
    "read signing keys." "Creating new signing CA keys.".
Proof. reflexivity. Qed.

Lemma main_signing_cert_block root_cert key pub :
  main_signing_cert root_cert key pub =
  cert_block "signing_cert.pem" "read signing certificate."
    "Creating new signing certificate."
    (create_signing_cert root_cert key pub 14).
Proof. reflexivity. Qed.

Lemma main_server_keys_block :
  main_server_keys =
  keys_block "server_priv_key.pem" "server_pub_key.pem"
    "read server keys." "Creating new server keys.".
Proof. reflexivity. Qed.

Lemma main_server_cert_block signing_cert key pub :
  main_server_cert signing_cert key pub =
  cert_block "server_cert.pem" "read server certificate."
    "Creating new server certificate."
    (create_server_cert signing_cert key pub 14).
Proof. reflexivity. Qed.

Lemma main_client_keys_block :
  main_client_keys =
  keys_block "client_priv_key.pem" "client_pub_key.pem"
    "read client keys." "Creating new client keys.".
Proof. reflexivity. Qed.

Lemma main_client_cert_block key :
  main_client_cert key =
  cert_block "client_cert.pem" "read client certificate."
    "Creating new client certificate."
    (create_selfsigned_client_cert key 14).
Proof. reflexivity. Qed.

Lemma fs_log e s : fs (log e s) = fs s.
Proof. reflexivity. Qed.

Lemma trace_log e s : trace (log e s) = trace s ++ [e].
Proof. reflexivity. Qed.

Lemma world_log e s : world (log e s) = world s.
Proof. reflexivity. Qed.

Lemma State_eq (s1 s2 : State) :
  fs s1 = fs s2 → trace s1 = trace s2 → world s1 = world s2 → s1 = s2.
Proof. destruct s1, s2; simpl; congruence. Qed.

Lemma keys_block_present priv pub rm cm s priv_key pub_key :
  fs s !! priv = Some (File priv_key) →
  fs s !! pub = Some (File pub_key) →
  keys_block priv pub rm cm s =
  (Ok (priv_key, pub_key),
   log (EvPrint rm) (log (EvRead pub) (log (EvRead priv) s))).
Proof. intros Hp Hq. unfold_run. rewrite Hp. simpl. by rewrite Hq. Qed.

Lemma cert_block_present file rm cm create s content :
  fs s !! file = Some (File content) →
  cert_block file rm cm create s =
  (Ok content, log (EvPrint rm) (log (EvRead file) s)).
Proof. intros Hf. unfold_run. by rewrite Hf. Qed.

Lemma cert_block_directory file rm cm create s :
  fs s !! file = Some Directory →
  cert_block file rm cm create s = (Raise (IsADirectoryError file), s).
Proof. intros Hf. unfold_run. by rewrite Hf. Qed.

Lemma cert_block_absent file rm cm create s :
  fs s !! file = None →
  cert_block file rm cm create s =
  match create (world s) with
  | (Ok content, w') =>
      (Ok content,
       mkState (<[file := File content]> (fs s))
         (trace s ++ [EvPrint cm; EvWrite file content]) w')
  | (Raise e, w') =>
      (Raise e, mkState (fs s) (trace s ++ [EvPrint cm]) w')
  end.
Proof.
  intros Hf. unfold_run. rewrite Hf.
  destruct (create (world s)) as [[content|e] w']; simpl; [|done].
  rewrite Hf. by rewrite <- app_assoc.
Qed.

Lemma main_on_populated_store s :
  (∀ k, present k (fs s)) →
  main s =
  (Ok (), mkState (fs s) (trace s ++ read_only_events) (world s)).
Proof.
  intros Hall.
  destruct (Hall RootKeys "root_ca_priv_key.pem") as [rk Hrk];
    [simpl; set_solver|].
  destruct (Hall RootKeys "root_ca_pub_key.pem") as [rp Hrp];
    [simpl; set_solver|].
  destruct (Hall RootCert "root_cert.pem") as [rc Hrc];
    [simpl; set_solver|].
  destruct (Hall SigningKeys "signing_ca_priv_key.pem") as [sk Hsk];
    [simpl; set_solver|].
  destruct (Hall SigningKeys "signing_ca_pub_key.pem") as [sp Hsp];
    [simpl; set_solver|].
  destruct (Hall SigningCert "signing_cert.pem") as [sc Hsc];
    [simpl; set_solver|].
  destruct (Hall ServerKeys "server_priv_key.pem") as [vk Hvk];
    [simpl; set_solver|].
  destruct (Hall ServerKeys "server_pub_key.pem") as [vp Hvp];
    [simpl; set_solver|].
  destruct (Hall ServerCert "server_cert.pem") as [vc Hvc];
    [simpl; set_solver|].
  destruct (Hall ClientKeys "client_priv_key.pem") as [ck Hck];
    [simpl; set_solver|].
  destruct (Hall ClientKeys "client_pub_key.pem") as [cp Hcp];
    [simpl; set_solver|].
  destruct (Hall ClientCert "client_cert.pem") as [cc Hcc];
    [simpl; set_solver|].
  unfold main, mbind, M_bind.
  rewrite main_root_ca_keys_block,
    (keys_block_present _ _ _ _ _ rk rp) by (rewrite ?fs_log; assumption).
  rewrite main_root_cert_block, (cert_block_present _ _ _ _ _ rc) by (rewrite ?fs_log; assumption).
  rewrite main_signing_ca_keys_block,
    (keys_block_present _ _ _ _ _ sk sp) by (rewrite ?fs_log; assumption).
  rewrite main_signing_cert_block,
    (cert_block_present _ _ _ _ _ sc) by (rewrite ?fs_log; assumption).
  rewrite main_server_keys_block,
    (keys_block_present _ _ _ _ _ vk vp) by (rewrite ?fs_log; assumption).
  rewrite main_server_cert_block,
    (cert_block_present _ _ _ _ _ vc) by (rewrite ?fs_log; assumption).
  rewrite main_client_keys_block,
    (keys_block_present _ _ _ _ _ ck cp) by (rewrite ?fs_log; assumption).
  rewrite main_client_cert_block,
    (cert_block_present _ _ _ _ _ cc) by (rewrite ?fs_log; assumption).
  unfold mret, M_ret. f_equal. apply State_eq.
  - by rewrite !fs_log.
  - rewrite !trace_log, <- !app_assoc. reflexivity.
  - by rewrite !world_log.
Qed.

(** C2. Run against a store in which all eight slots are present, [main]
    returns normally after reading the twelve files in order and
    printing the eight "read" messages: it writes nothing, calls nothing
    of the backend, and leaves every file as it was. That is the case of
    the store any run that returned normally leaves behind: a second run
    from there only reads. *)
Theorem populated_store_is_only_read :
  (∀ s, (∀ k, present k (fs s)) →
        main s =
        (Ok (), mkState (fs s) (trace s ++ read_only_events) (world s))) ∧
  (∀ s0, (main s0).1 = Ok () →
         let s1 := (main s0).2 in
         main s1 =
         (Ok (),
          mkState (fs s1) (trace s1 ++ read_only_events) (world s1))).
Proof.
  split; [exact main_on_populated_store|].
  intros s0 Hok s1. apply main_on_populated_store.
  by apply (proj2 (main_ledger s0)).
Qed.

(** C10. A certificate slot is present exactly when its file can be
    opened and read. The slot's [try] statement then returns the bytes of
    the file as they are, whatever they are, after logging the read and
    printing the "read" message: nothing of the backend is called and
    nothing is written. When the name cannot be opened for another reason
    than its absence, the exception propagates and nothing is created.
    Only when the file is absent does the statement print its "Creating"
    message. And over a whole run of [main], no file of a slot (of keys
    or of a certificate) that was present at the start is written, and
    each keeps its content. *)
Theorem present_slot_is_reused :
  (∀ r issuer_cert priv_key pub_key s content,
     fs s !! cert_file r = Some (File content) →
     main_cert_statement r issuer_cert priv_key pub_key s =
     (Ok content,
      log (EvPrint (read_message r)) (log (EvRead (cert_file r)) s))) ∧
  (∀ r issuer_cert priv_key pub_key s,
     fs s !! cert_file r = Some Directory →
     main_cert_statement r issuer_cert priv_key pub_key s =
     (Raise (IsADirectoryError (cert_file r)), s)) ∧
  (∀ r issuer_cert priv_key pub_key s,
     fs s !! cert_file r = None →
     ∃ evs,
       trace (main_cert_statement r issuer_cert priv_key pub_key s).2 =
       trace s ++ EvPrint (create_message r) :: evs) ∧
  (∀ s0 k f,
     present k (fs s0) → f ∈ slot_files k →
     fs (main s0).2 !! f = fs s0 !! f ∧
     ∀ content, ¬ main_writes s0 f content).
Proof.
  split; [|split; [|split]].
  - intros r ic pk pb s content Hf.
    destruct r; simpl in *; by apply cert_block_present.
  - intros r ic pk pb s Hf.
    destruct r; simpl in *; by apply cert_block_directory.
  - intros r ic pk pb s Hf.
    assert (Hgen : ∀ rm cm create,
               ∃ evs, trace (cert_block (cert_file r) rm cm create s).2
                      = trace s ++ EvPrint cm :: evs).
    { intros rm cm create. rewrite cert_block_absent by done.
      destruct (create (world s)) as [[content|e] w']; simpl; eauto. }
    destruct r; simpl in *; apply Hgen.
  - intros s0 k f Hp Hf.
    assert (Hnot : ∀ content, ¬ main_writes s0 f content).
    { intros content Hw.
      apply main_writes_ledger in Hw as (_ & k' & Hk' & Hmiss & _).
      assert (k' = k) as -> by by apply (slot_files_disjoint _ _ f).
      destruct Hmiss as (g & Hg & Hnone).
      destruct (Hp g Hg) as [c Hc]. congruence. }
    split; [|done].
    destruct (main_ledger s0) as [(evs & Htr & Hun & _) _].
    apply Hun. intros content Hin. apply (Hnot content). by exists evs.
Qed.


(** ** Which statement of [main] wrote a file, and in which world *)









Lemma key_files_slot r :
  slot_files (key_slot r) = [(key_files r).1; (key_files r).2] ∧
  (key_files r).1 ≠ (key_files r).2.
Proof. by destruct r. Qed.











(** ** What a run does not depend on *)

Lemma related_ret {A} f (RV : A → A → Prop) a1 a2 :
  RV a1 a2 → related f RV (mret a1) (mret a2).
Proof. intros HR s1 s2 Hs. by split. Qed.

Lemma related_bind {A C} f (RV : A → A → Prop) (RW : C → C → Prop)
    (m1 m2 : M State A) (k1 k2 : A → M State C) :
  related f RV m1 m2 →
  (∀ a1 a2, RV a1 a2 → related f RW (k1 a1) (k2 a2)) →
  related f RW (m1 ≫= k1) (m2 ≫= k2).
Proof.
  intros Hm Hk s1 s2 Hs. unfold mbind, M_bind.
  destruct (Hm s1 s2 Hs) as [Hs' Hr].
  destruct (m1 s1) as [[a1|e1] s1'], (m2 s2) as [[a2|e2] s2'];
    simpl in *; try done.
  by apply Hk.
Qed.

Lemma related_try {A} f (RV : A → A → Prop) (b1 b2 h1 h2 : M State A) :
  related f RV b1 b2 → related f RV h1 h2 →
  related f RV (try_except_FileNotFoundError b1 h1)
    (try_except_FileNotFoundError b2 h2).
Proof.
  intros Hb Hh s1 s2 Hs. unfold try_except_FileNotFoundError.
  destruct (Hb s1 s2 Hs) as [Hs' Hr].
  destruct (b1 s1) as [[a1|e1] s1'], (b2 s2) as [[a2|e2] s2'];
    simpl in *; try done.
  subst e2. destruct e1; try done. by apply Hh.
Qed.

Lemma agree_log f e s1 s2 :
  agree_except f s1 s2 → agree_except f (log e s1) (log e s2).
Proof.
  intros (Ht & Hw & Hfs & H1 & H2). unfold agree_except, log. simpl.
  by rewrite Ht.
Qed.

Lemma related_read f g :
  g ≠ f → related f eq (read_file g) (read_file g).
Proof.
  intros Hg s1 s2 Hs. pose proof Hs as (Ht & Hw & Hfs & H1 & H2).
  unfold read_file. rewrite (Hfs g Hg).
  destruct (fs s2 !! g) as [[c|]|]; simpl; try done.
  split; [|done]. by apply agree_log.
Qed.

Lemma related_read_own f :
  related f (λ _ _, True) (read_file f) (read_file f).
Proof.
  intros s1 s2 Hs. pose proof Hs as (Ht & Hw & Hfs & [c1 H1] & [c2 H2]).
  unfold read_file. rewrite H1, H2. simpl.
  split; [|done]. by apply agree_log.
Qed.

Lemma related_write f g content :
  related f eq (write_file g content) (write_file g content).
Proof.
  intros s1 s2 Hs. pose proof Hs as (Ht & Hw & Hfs & [c1 H1] & [c2 H2]).
  unfold write_file.
  assert (Hdone :
    agree_except f
      (log (EvWrite g content)
         (mkState (<[g := File content]> (fs s1)) (trace s1) (world s1)))
      (log (EvWrite g content)
         (mkState (<[g := File content]> (fs s2)) (trace s2) (world s2)))).
  { apply agree_log. unfold agree_except. simpl.
    split; [done|]. split; [done|]. split; [|split].
    - intros h Hh. rewrite !lookup_insert. case_decide; [done|].
      by apply Hfs.
    - rewrite lookup_insert. case_decide; eauto.
    - rewrite lookup_insert. case_decide; eauto. }
  destruct (decide (g = f)) as [->|Hg].
  - rewrite H1, H2. by split.
  - rewrite (Hfs g Hg).
    destruct (fs s2 !! g) as [[c|]|]; simpl; by split.
Qed.

Lemma related_print f text : related f eq (print text) (print text).
Proof. intros s1 s2 Hs. split; [|done]. by apply agree_log. Qed.

Lemma related_in_world {A} f (m : M World A) :
  related f eq (in_world m) (in_world m).
Proof.
  intros s1 s2 (Ht & Hw & Hfs & H1 & H2). unfold in_world.
  rewrite Hw. destruct (m (world s2)) as [[a|e] w']; simpl; by split.
Qed.

Lemma related_keys_create f priv pub cm :
  related f eq
    (print cm;;
     '(priv_key, pub_key) ← in_world create_rsa_key_pair;
     write_file priv priv_key;;
     write_file pub pub_key;;
     mret (priv_key, pub_key))
    (print cm;;
     '(priv_key, pub_key) ← in_world create_rsa_key_pair;
     write_file priv priv_key;;
     write_file pub pub_key;;
     mret (priv_key, pub_key)).
Proof.
  eapply related_bind; [apply related_print|]. intros _ _ _.
  eapply related_bind; [apply related_in_world|].
  intros [p q] ? <-.
  eapply related_bind; [apply related_write|]. intros _ _ _.
  eapply related_bind; [apply related_write|]. intros _ _ _.
  by apply related_ret.
Qed.

Lemma related_weaken {A} f (RV RW : A → A → Prop) (m1 m2 : M State A) :
  (∀ a1 a2, RV a1 a2 → RW a1 a2) →
  related f RV m1 m2 → related f RW m1 m2.
Proof.
  intros Hi Hm s1 s2 Hs. destruct (Hm s1 s2 Hs) as [Hs' Hr].
  split; [done|].
  destruct (m1 s1).1, (m2 s2).1; try done. by apply Hi.
Qed.

Lemma related_keys_block f priv pub rm cm :
  priv ≠ f → pub ≠ f →
  related f eq (keys_block priv pub rm cm) (keys_block priv pub rm cm).
Proof.
  intros Hp Hq. apply related_try; [|apply related_keys_create].
  eapply related_bind; [by apply related_read|]. intros p ? <-.
  eapply related_bind; [by apply related_read|]. intros q ? <-.
  eapply related_bind; [apply related_print|]. intros _ _ _.
  by apply related_ret.
Qed.

Lemma related_keys_block_own f priv rm cm :
  priv ≠ f →
  related f (λ v1 v2, v1.1 = v2.1)
    (keys_block priv f rm cm) (keys_block priv f rm cm).
Proof.
  intros Hp. apply related_try.
  - eapply related_bind; [by apply related_read|]. intros p ? <-.
    eapply related_bind; [apply related_read_own|]. intros q1 q2 _.
    eapply related_bind; [apply related_print|]. intros _ _ _.
    by apply related_ret.
  - eapply related_weaken; [|apply related_keys_create].
    by intros ? ? <-.
Qed.

Lemma related_cert_block f file rm cm create :
  file ≠ f →
  related f eq (cert_block file rm cm create)
    (cert_block file rm cm create).
Proof.
  intros Hf. apply related_try.
  - eapply related_bind; [by apply related_read|]. intros c ? <-.
    eapply related_bind; [apply related_print|]. intros _ _ _.
    by apply related_ret.
  - eapply related_bind; [apply related_print|]. intros _ _ _.
    eapply related_bind; [apply related_in_world|]. intros c ? <-.
    eapply related_bind; [apply related_write|]. intros _ _ _.
    by apply related_ret.
Qed.

Lemma main_ignores_root_ca_pub_key :
  related "root_ca_pub_key.pem" eq main main.
Proof.
  unfold main.
  eapply related_bind;
    [rewrite main_root_ca_keys_block; by apply related_keys_block_own|].
  intros [rk rp1] [? rp2] [= <-].
  eapply related_bind;
    [rewrite main_root_cert_block; by apply related_cert_block|].
  intros rc ? <-.
  eapply related_bind;
    [rewrite main_signing_ca_keys_block; by apply related_keys_block|].
  intros [sk sp] ? <-.
  eapply related_bind;
    [rewrite main_signing_cert_block; by apply related_cert_block|].
  intros sc ? <-.
  eapply related_bind;
    [rewrite main_server_keys_block; by apply related_keys_block|].
  intros [vk vp] ? <-.
  eapply related_bind;
    [rewrite main_server_cert_block; by apply related_cert_block|].
  intros vc ? <-.
  eapply related_bind;
    [rewrite main_client_keys_block; by apply related_keys_block|].
  intros [ck cp] ? <-.
  eapply related_bind;
    [rewrite main_client_cert_block; by apply related_cert_block|].
  intros cc ? <-. by apply related_ret.
Qed.

Lemma main_ignores_client_pub_key :
  related "client_pub_key.pem" eq main main.
Proof.
  unfold main.
  eapply related_bind;
    [rewrite main_root_ca_keys_block; by apply related_keys_block|].
  intros [rk rp] ? <-.
  eapply related_bind;
    [rewrite main_root_cert_block; by apply related_cert_block|].
  intros rc ? <-.
  eapply related_bind;
    [rewrite main_signing_ca_keys_block; by apply related_keys_block|].
  intros [sk sp] ? <-.
  eapply related_bind;
    [rewrite main_signing_cert_block; by apply related_cert_block|].
  intros sc ? <-.
  eapply related_bind;
    [rewrite main_server_keys_block; by apply related_keys_block|].
  intros [vk vp] ? <-.
  eapply related_bind;
    [rewrite main_server_cert_block; by apply related_cert_block|].
  intros vc ? <-.
  eapply related_bind;
    [rewrite main_client_keys_block; by apply related_keys_block_own|].
  intros [ck cp1] [? cp2] [= <-].
  eapply related_bind;
    [rewrite main_client_cert_block; by apply related_cert_block|].
  intros cc ? <-. by apply related_ret.
Qed.

(** C9. The builders of the root and of the client certificate are given
    the PEM private key only; the certificate they return embeds the
    public key of that private key and is signed with it. And a run of
    [main] does not depend on what the files root_ca_pub_key.pem and
    client_pub_key.pem hold: with either file holding one content or
    another, the run returns or raises the same, logs the same events
    (so writes the same certificates), leaves the backend in the same
    world and every other file with the same content. *)
Theorem self_signed_certificates_use_the_private_key :
  (∀ pem days w content w',
     create_root_cert pem days w = (Ok content, w') →
     ∃ key c,
       load_pem_private_key pem None = Ok key ∧
       content = certificate_public_bytes c PEM ∧
       cert_public_key c = private_key_public_key key ∧
       ∃ tbs, backend_sign key SHA256 tbs = Ok (signature c)) ∧
  (∀ pem days w content w',
     create_selfsigned_client_cert pem days w = (Ok content, w') →
     ∃ key c,
       load_pem_private_key pem None = Ok key ∧
       content = certificate_public_bytes c PEM ∧
       cert_public_key c = private_key_public_key key ∧
       ∃ tbs, backend_sign key SHA256 tbs = Ok (signature c)) ∧
  (∀ f s content1 content2,
     f = "root_ca_pub_key.pem" ∨ f = "client_pub_key.pem" →
     let run1 := main (set_file f (File content1) s) in
     let run2 := main (set_file f (File content2) s) in
     run1.1 = run2.1 ∧
     trace run1.2 = trace run2.2 ∧
     world run1.2 = world run2.2 ∧
     ∀ g, g ≠ f → fs run1.2 !! g = fs run2.2 !! g).
Proof.
  split; [|split].
  - intros pem days w content w' Hc.
    apply create_root_cert_inv in Hc
      as (key & c & Hl & -> & _ & _ & _ & _ & _ & Hpk & _ & _ & Hsig).
    by exists key, c.
  - intros pem days w content w' Hc.
    apply create_selfsigned_client_cert_inv in Hc
      as (key & c & Hl & -> & _ & _ & _ & _ & _ & Hpk & _ & _ & Hsig).
    by exists key, c.
  - intros f s c1 c2 Hf run1 run2.
    assert (Hs : agree_except f (set_file f (File c1) s)
                   (set_file f (File c2) s)).
    { unfold agree_except, set_file. simpl.
      split; [done|]. split; [done|]. split; [|split].
      - intros g Hg. by rewrite !lookup_insert_ne.
      - exists c1. by rewrite lookup_insert_eq.
      - exists c2. by rewrite lookup_insert_eq. }
    assert (Hrel : related f eq main main).
    { destruct Hf as [-> | ->];
        [apply main_ignores_root_ca_pub_key
        |apply main_ignores_client_pub_key]. }
    destruct (Hrel _ _ Hs) as [(Ht & Hw & Hfs & _) Hr].
    fold run1 run2 in Ht, Hw, Hfs, Hr.
    split; [|done].
    destruct run1.1 as [[]|e1], run2.1 as [[]|e2]; try done.
    by subst.
Qed.
End Facts.

(** * Further properties of the builders and of [main] *)

Section More.
Context {KT : KeyTypes} {B : Backend}.

Ltac inv_builds Hb :=
  match type of Hb with builds ?r _ _ _ => destruct r; simpl in Hb end;
  [ destruct Hb as (pem & w' & Hb);
    apply create_root_cert_inv in Hb as (key & c & Hload & -> & Hc)
  | destruct Hb as (pem_i & pem & pem_p & w' & Hb);
    apply create_signing_cert_inv in Hb
      as (issuer_cert & key & pub & c & Hli & Hload & Hlp & -> & Hc)
  | destruct Hb as (pem_i & pem & pem_p & w' & Hb);
    apply create_server_cert_inv in Hb
      as (issuer_cert & key & pub & c & Hli & Hload & Hlp & -> & Hc)
  | destruct Hb as (pem & w' & Hb);
    apply create_selfsigned_client_cert_inv in Hb
      as (key & c & Hload & -> & Hc) ];
  match goal with
  | Hcert : certificate_of _ _ _ _ _ _ _ _ |- _ =>
      destruct Hcert
        as (Hsubj & Hiss & Hnvb & Hnva & Hser & Hpk & Hext & Halg & Hsig)
  end.

Ltac in_list H :=
  set_unfold in H; repeat destruct H as [H|H]; try discriminate H;
  try contradiction.

(** ** Builders: errors, names, alternative names *)

Lemma builder_cases r pem_issuer_cert pem_private_key pem_public_key
    days w :
  let run :=
    builder r pem_issuer_cert pem_private_key pem_public_key days w in
  let now := (datetime_now w).1 in
  let w1 := (datetime_now w).2 in
  let serial := (random_serial_number w1).1 in
  let w2 := (random_serial_number w1).2 in
  match parse_error r pem_issuer_cert pem_private_key pem_public_key with
  | Some e => run = (Raise e, w)
  | None =>
      if negb (((-999999999 <=? days) && (days <=? 999999999)) &&
               ((0 <=? now + days * 86400000000) &&
                (now + days * 86400000000 <=? datetime_max)))
      then ∃ msg, run = (Raise (OverflowError msg), w1)
      else if (now <? Builder.EARLY_UTC_TIME) || (days <? 0)
      then ∃ msg, run = (Raise (ValueError msg), w1)
      else if (serial <=? 0) || (2 ^ 159 <=? serial)
      then ∃ msg, run = (Raise (ValueError msg), w2)
      else
        ∃ key public_key,
          signing_key pem_private_key = Some key ∧
          subject_key r pem_private_key pem_public_key = Some public_key ∧
          if is_certificate_public_key public_key
          then (∃ content, run = (Ok content, w2)) ∨
               (∃ tbs e, complete tbs ∧
                  backend_sign key SHA256 tbs = Raise e ∧
                  run = (Raise e, w2))
          else ∃ msg, run = (Raise (TypeError msg), w2)
  end.
Proof.
  cbv zeta.
  destruct r; unfold builder, parse_error, signing_key, subject_key;
    unfold create_root_cert, create_signing_cert, create_server_cert,
      create_selfsigned_client_cert;
    cbv beta iota zeta delta [mbind M_bind lift];
    repeat match goal with
    | |- context [load_pem_x509_certificate ?x] =>
        destruct (load_pem_x509_certificate x); [|reflexivity]
    | |- context [load_pem_private_key ?x ?y] =>
        destruct (load_pem_private_key x y); [|reflexivity]
    | |- context [load_pem_public_key ?x] =>
        destruct (load_pem_public_key x); [|reflexivity]
    end;
    rewrite cert_helper_run, timedelta_days; cbv zeta;
    set (now := (datetime_now w).1); set (w1 := (datetime_now w).2);
    set (serial := (random_serial_number w1).1);
    set (w2 := (random_serial_number w1).2);
    (destruct ((-999999999 <=? days) && (days <=? 999999999)) eqn:Hd;
       [|by eexists]);
    unfold datetime_add;
    (destruct ((0 <=? now + days * 86400000000) &&
               (now + days * 86400000000 <=? datetime_max)) eqn:He;
       [|by eexists]);
    cbv beta iota zeta delta [andb negb];
    unfold Builder.not_valid_before, Builder.not_valid_after,
      Builder.serial_number, Builder.public_key;
    cbv beta iota zeta
      delta [b_subject_name b_issuer_name b_public_key b_serial_number
             b_not_valid_before b_not_valid_after b_extensions];
    (destruct (now <? Builder.EARLY_UTC_TIME) eqn:H1; [by eexists|]);
    cbv beta iota delta [orb];
    (destruct (days <? 0) eqn:H0;
       [ destruct (now + days * 86400000000 <? Builder.EARLY_UTC_TIME);
           [by eexists|];
         destruct (now + days * 86400000000 <? now) eqn:H3;
           [by eexists|lia]
       | destruct (now + days * 86400000000 <? Builder.EARLY_UTC_TIME)
           eqn:H2; [lia|];
         destruct (now + days * 86400000000 <? now) eqn:H3; [lia|] ]);
    (destruct (serial <=? 0) eqn:H4; [by eexists|]);
    cbv beta iota delta [orb];
    (destruct (2 ^ 159 <=? serial) eqn:H5; [by eexists|]);
    eexists _, _; (split; [reflexivity|]); (split; [reflexivity|]);
    match goal with
    | |- context [is_certificate_public_key ?k] =>
        destruct (is_certificate_public_key k); [|by eexists]
    end;
    cbv beta iota zeta delta [mbind M_bind lift mret M_ret];
    repeat (rewrite add_extension_run by reflexivity; cbv beta iota);
    rewrite sign_run;
    match goal with
    | |- context [backend_sign ?k ?a ?b] =>
        destruct (backend_sign k a b) as [sig|e] eqn:Hsig;
          [ left; eexists; reflexivity
          | right; exists b, e; split; [|done];
            unfold complete; simpl; eauto 10 ]
    end.
Qed.


(** X2. The subject name is fixed per role: a common name for the root
    and the intermediate, an organizational unit for the server and the
    client. *)
Theorem subject_name_per_role r days w content :
  builds r days w content →
  ∃ c, content = certificate_public_bytes c PEM ∧
    subject c =
    match r with
    | Root => [mkNameAttribute COMMON_NAME "Mothership Root"]
    | IntermediateCA => [mkNameAttribute COMMON_NAME "Mothership CA1"]
    | Server =>
        [mkNameAttribute ORGANIZATIONAL_UNIT_NAME "Mothership Server"]
    | Client => [mkNameAttribute ORGANIZATIONAL_UNIT_NAME "Random client"]
    end.
Proof.
  intros Hb. inv_builds Hb; exists c; (split; [done|]); by rewrite Hsubj.
Qed.

(** X3. The root and the intermediate certificate have neither a
    SubjectAlternativeName nor an ExtendedKeyUsage. The server certificate
    names the DNS name mothership_server and is for server authentication
    only; the client certificate names the directory name with serial
    number device_0001 and is for client authentication only. *)
Theorem alternative_name_and_extended_usage_per_role r days w content :
  builds r days w content →
  ∃ c, content = certificate_public_bytes c PEM ∧
    ext_value <$>
      get_extension_for_oid (extensions c) SUBJECT_ALTERNATIVE_NAME =
    match r with
    | Root | IntermediateCA => None
    | Server => Some (SubjectAlternativeName [DNSName "mothership_server"])
    | Client =>
        Some (SubjectAlternativeName
                [DirectoryName
                   [mkNameAttribute SERIAL_NUMBER "device_0001"]])
    end ∧
    ext_value <$> get_extension_for_oid (extensions c) EXTENDED_KEY_USAGE =
    match r with
    | Root | IntermediateCA => None
    | Server => Some (ExtendedKeyUsage [SERVER_AUTH])
    | Client => Some (ExtendedKeyUsage [CLIENT_AUTH])
    end.
Proof.
  intros Hb. inv_builds Hb; exists c; (split; [done|]);
    rewrite Hext; split; reflexivity.
Qed.

(** X4. Every certificate a builder returns carries the serial number the
    backend drew right after the clock was read, and is signed with
    SHA-256. *)
Theorem serial_number_and_hash r days w content :
  builds r days w content →
  ∃ c, content = certificate_public_bytes c PEM ∧
    serial_number c = (random_serial_number (datetime_now w).2).1 ∧
    signature_hash_algorithm c = SHA256.
Proof.
  intros Hb. inv_builds Hb; exists c; done.
Qed.

(** ** Runs of [main]: which keys, which files, in which order *)

Lemma written_or_not (evs : list event) f :
  (∃ content, EvWrite f content ∈ evs) ∨
  (∀ content, EvWrite f content ∉ evs).
Proof.
  induction evs as [|e evs IH].
  - right. intros content Hin. by apply elem_of_nil in Hin.
  - destruct IH as [[content Hin]|Hno].
    + left. exists content. by apply elem_of_cons; right.
    + destruct e as [g|g content|text].
      * right. intros c Hin. apply elem_of_cons in Hin as [[=]|Hin].
        by apply (Hno c).
      * destruct (decide (g = f)) as [->|Hne].
        -- left. exists content. by apply elem_of_cons; left.
        -- right. intros c Hin. apply elem_of_cons in Hin as [[= <- _]|Hin];
             [done|by apply (Hno c)].
      * right. intros c Hin. apply elem_of_cons in Hin as [[=]|Hin].
        by apply (Hno c).
Qed.

Lemma present_slot_not_written s0 k f content :
  present k (fs s0) → f ∈ slot_files k → ¬ main_writes s0 f content.
Proof.
  intros Hp Hf Hw.
  apply main_writes_ledger in Hw as (_ & k' & Hk' & Hmiss & _).
  assert (k' = k) as -> by by apply (slot_files_disjoint _ _ f).
  destruct Hmiss as (g & Hg & Hnone).
  destruct (Hp g Hg) as [c Hc]. congruence.
Qed.

Lemma not_written_unchanged s0 f :
  (∀ content, ¬ main_writes s0 f content) →
  fs (main s0).2 !! f = fs s0 !! f.
Proof.
  intros Hno. destruct (main_ledger s0) as [(evs & Htr & Hun & _) _].
  apply Hun. intros content Hin. apply (Hno content). by exists evs.
Qed.

(** X5. Which keys stand behind a certificate a run of [main] writes. It
    is signed with the private key held, at the end of the run, by
    root_ca_priv_key.pem for the root and the intermediate certificate, by
    signing_ca_priv_key.pem for the server certificate and by
    client_priv_key.pem for the client certificate. Its subject key is the
    public key of that private key for the root and the client, and the
    key held by signing_ca_pub_key.pem, respectively server_pub_key.pem,
    for the intermediate and the server certificate. Neither
    signing_ca_priv_key.pem nor server_priv_key.pem is consulted for the
    subject key. *)
Theorem keys_behind_a_certificate s0 r content :
  main_writes s0 (cert_file r) content →
  ∃ c pem_key key,
    content = certificate_public_bytes c PEM ∧
    fs (main s0).2 !! signing_key_file r = Some (File pem_key) ∧
    load_pem_private_key pem_key None = Ok key ∧
    (∃ tbs, backend_sign key SHA256 tbs = Ok (signature c)) ∧
    match r with
    | Root | Client => cert_public_key c = private_key_public_key key
    | IntermediateCA | Server =>
        ∃ pem_pub,
          fs (main s0).2 !! subject_key_file r = Some (File pem_pub) ∧
          load_pem_public_key pem_pub = Ok (cert_public_key c)
    end.
Proof.
  intros Hw. apply main_writes_cert in Hw.
  destruct r; simpl in Hw.
  - destruct Hw as (pem & w & w' & Hfile & Hc).
    apply create_root_cert_inv in Hc
      as (key & c & Hl & -> & _ & _ & _ & _ & _ & Hpk & _ & _ & Hsig).
    by exists c, pem, key.
  - destruct Hw as (ic & pem & pub & w & w' & _ & Hfile & Hpub & Hc).
    apply create_signing_cert_inv in Hc
      as (signer & key & pubk & c & _ & Hl & Hlp & -> &
          _ & _ & _ & _ & _ & Hpk & _ & _ & Hsig).
    exists c, pem, key. repeat (split; [done|]).
    exists pub. by rewrite Hpk.
  - destruct Hw as (ic & pem & pub & w & w' & _ & Hfile & Hpub & Hc).
    apply create_server_cert_inv in Hc
      as (signer & key & pubk & c & _ & Hl & Hlp & -> &
          _ & _ & _ & _ & _ & Hpk & _ & _ & Hsig).
    exists c, pem, key. repeat (split; [done|]).
    exists pub. by rewrite Hpk.
  - destruct Hw as (pem & w & w' & Hfile & Hc).
    apply create_selfsigned_client_cert_inv in Hc
      as (key & c & Hl & -> & _ & _ & _ & _ & _ & Hpk & _ & _ & Hsig).
    by exists c, pem, key.
Qed.

(** X6. A run of [main] keeps to its twelve files and deletes nothing: a
    name that is not one of them is never written and denotes at the end
    what it denoted at the start, and every name that denoted something at
    the start still does at the end. *)
Theorem main_keeps_to_its_files s0 f :
  ((∀ k, f ∉ slot_files k) →
   fs (main s0).2 !! f = fs s0 !! f ∧
   ∀ content, ¬ main_writes s0 f content) ∧
  (is_Some (fs s0 !! f) → is_Some (fs (main s0).2 !! f)).
Proof.
  split.
  - intros Hout.
    assert (Hno : ∀ content, ¬ main_writes s0 f content).
    { intros content Hw.
      apply main_writes_ledger in Hw as (_ & k & Hk & _).
      by apply (Hout k). }
    split; [by apply not_written_unchanged|done].
  - intros Hsome.
    destruct (main_ledger s0) as [(evs & Htr & Hun & Hwr) _].
    destruct (written_or_not evs f) as [[content Hin]|Hno].
    + destruct (Hwr f content Hin) as [-> _]. by eexists.
    + by rewrite Hun.
Qed.

(** X7. A run of [main] writes a file only once every slot before the
    file's own is complete, and what it wrote is what the file holds when
    the run ends, whether the run returns or raises. *)
Theorem writes_follow_the_slot_order s0 f content :
  main_writes s0 f content →
  fs (main s0).2 !! f = Some (File content) ∧
  ∃ k, f ∈ slot_files k ∧
       ∀ k', (slot_rank k' < slot_rank k)%nat →
             present k' (fs (main s0).2).
Proof.
  intros Hw. apply main_writes_ledger in Hw as (Hf & k & Hk & _ & Hp & _).
  split; [done|]. by exists k.
Qed.

(** X8. A certificate written by a run of [main], even by one that raised
    later, is picked up by the next run: the next run does not write the
    certificate's file and leaves it with the same content. *)
Theorem written_certificate_is_reused s0 r content :
  main_writes s0 (cert_file r) content →
  let s1 := (main s0).2 in
  (∀ content', ¬ main_writes s1 (cert_file r) content') ∧
  fs (main s1).2 !! cert_file r = Some (File content).
Proof.
  intros Hw s1. apply main_writes_ledger in Hw as (Hf & _).
  fold s1 in Hf.
  assert (Hp : present (cert_slot r) (fs s1)).
  { intros g Hg. exists content.
    destruct r; simpl in Hg; in_list Hg; by subst g. }
  assert (Hno : ∀ content', ¬ main_writes s1 (cert_file r) content').
  { intros content'.
    apply (present_slot_not_written s1 (cert_slot r)); [done|].
    apply cert_file_slot. }
  split; [done|]. by rewrite not_written_unchanged.
Qed.

Lemma create_rsa_key_pair_inv `{!BackendSpec} w priv_bytes pub_bytes w' :
  create_rsa_key_pair w = (Ok (priv_bytes, pub_bytes), w') →
  ∃ key, rsa_parameters key = Some (65537, 2048) ∧
    priv_bytes = private_bytes key PEM PKCS8 NoEncryption ∧
    pub_bytes = public_bytes (private_key_public_key key) PEM PKCS1.
Proof.
  unfold create_rsa_key_pair, mbind, M_bind, call_opt.
  destruct (rsa_generate_private_key 65537 2048 w) as [[key|] w1] eqn:Hg;
    [|done].
  intros [= <- <- <-]. exists key. split; [|done].
  by apply (rsa_generate_parameters _ _ w key w1).
Qed.

(** X9. Every key file a run of [main] writes comes from
    [create_rsa_key_pair]: a private key file holds the unencrypted PKCS#8
    PEM of an RSA key with a 2048-bit modulus and public exponent 65537,
    and a public key file holds the PKCS#1 PEM of the public key of such a
    key. *)
Theorem written_keys_are_rsa_2048 `{!BackendSpec} s0 r content :
  (main_writes s0 (key_files r).1 content →
   ∃ key, rsa_parameters key = Some (65537, 2048) ∧
     content = private_bytes key PEM PKCS8 NoEncryption) ∧
  (main_writes s0 (key_files r).2 content →
   ∃ key, rsa_parameters key = Some (65537, 2048) ∧
     content = public_bytes (private_key_public_key key) PEM PKCS1).
Proof.
  destruct (key_files_slot r) as [Hfiles Hne].
  assert (Horigin : ∀ f, f ∈ slot_files (key_slot r) →
            main_writes s0 f content →
            key_pair_origin (key_files r).1 (key_files r).2 f content).
  { intros f Hf Hw.
    apply main_writes_ledger in Hw as (_ & k & Hk & _ & _ & Ho).
    assert (k = key_slot r) as -> by by apply (slot_files_disjoint _ _ f).
    by destruct r. }
  split; intros Hw.
  - destruct (Horigin (key_files r).1) as (p & q & w & w' & Hc & Hcase);
      [rewrite Hfiles; set_solver|done|].
    apply create_rsa_key_pair_inv in Hc as (key & Hpar & -> & ->).
    exists key. split; [done|].
    destruct Hcase as [[_ ->]|[Heq _]]; done.
  - destruct (Horigin (key_files r).2) as (p & q & w & w' & Hc & Hcase);
      [rewrite Hfiles; set_solver|done|].
    apply create_rsa_key_pair_inv in Hc as (key & Hpar & -> & ->).
    exists key. split; [done|].
    destruct Hcase as [[Heq _]|[_ ->]]; [by symmetry in Heq|done].
Qed.

(** ** Runs of [main]: when they return, what a lone key file becomes *)

Ltac unfold_run :=
  unfold keys_block, cert_block, try_except_FileNotFoundError, mbind,
    M_bind, read_file, mret, M_ret, print, in_world, write_file, log;
  simpl.

Lemma cert_block_raises file rm cm create s e s' :
  cert_block file rm cm create s = (Raise e, s') →
  ∀ content, fs s' !! file ≠ Some (File content).
Proof.
  unfold_run. destruct (fs s !! file) as [[c|]|] eqn:Hf; simpl.
  - intros [=].
  - intros [= <- <-] content. congruence.
  - destruct (create (world s)) as [[c|e'] w'] eqn:Hc; simpl.
    + rewrite Hf. intros [=].
    + intros [= <- <-] content. simpl. congruence.
Qed.

Lemma keys_block_raises priv pub rm cm s e s' :
  priv ≠ pub →
  keys_block priv pub rm cm s = (Raise e, s') →
  (∀ content, fs s' !! priv ≠ Some (File content)) ∨
  (∀ content, fs s' !! pub ≠ Some (File content)).
Proof.
  intros Hne. unfold_run.
  destruct (fs s !! priv) as [[p0|]|] eqn:Hpriv; simpl.
  - destruct (fs s !! pub) as [[q0|]|] eqn:Hpub; simpl.
    + intros [=].
    + intros [= <- <-]. right. intros c. simpl. congruence.
    + destruct (create_rsa_key_pair (world s)) as [[[p q]|e'] w'] eqn:Hc;
        simpl.
      * rewrite Hpriv. simpl. rewrite lookup_insert_ne, Hpub by done.
        intros [=].
      * intros [= <- <-]. right. intros c. simpl. congruence.
  - intros [= <- <-]. left. intros c. congruence.
  - destruct (create_rsa_key_pair (world s)) as [[[p q]|e'] w'] eqn:Hc;
      simpl.
    + rewrite Hpriv. simpl. rewrite lookup_insert_ne by done.
      destruct (fs s !! pub) as [[q0|]|] eqn:Hpub; simpl.
      * intros [=].
      * intros [= <- <-]. right. intros c. simpl.
        rewrite lookup_insert_ne by done. congruence.
      * intros [=].
    + intros [= <- <-]. left. intros c. simpl. congruence.
Qed.

Lemma cert_block_incomplete k file rm cm create s e s' :
  slot_files k = [file] →
  cert_block file rm cm create s = (Raise e, s') →
  ¬ present k (fs s').
Proof.
  intros Hk Hrun Hp.
  destruct (Hp file) as [c Hc]; [rewrite Hk; set_solver|].
  by apply (cert_block_raises _ _ _ _ _ _ _ Hrun c).
Qed.

Lemma keys_block_incomplete k priv pub rm cm s e s' :
  slot_files k = [priv; pub] → priv ≠ pub →
  keys_block priv pub rm cm s = (Raise e, s') →
  ¬ present k (fs s').
Proof.
  intros Hk Hne Hrun Hp.
  destruct (Hp priv) as [c Hc]; [rewrite Hk; set_solver|].
  destruct (Hp pub) as [d Hd]; [rewrite Hk; set_solver|].
  destruct (keys_block_raises _ _ _ _ _ _ _ Hne Hrun) as [Hno|Hno].
  - by apply (Hno c).
  - by apply (Hno d).
Qed.

Lemma complete_store_returns s0 :
  (∀ k, present k (fs (main s0).2)) → (main s0).1 = Ok ().
Proof.
  unfold main, mbind, M_bind.
  destruct (main_root_ca_keys s0) as [[[rk rp]|e] s1] eqn:E1; simpl.
  2: { intros Hall. exfalso.
       by apply (keys_block_incomplete RootKeys _ _ _ _ _ _ _ eq_refl
                   ltac:(done) E1), Hall. }
  destruct (main_root_cert rk s1) as [[rc|e] s2] eqn:E2; simpl.
  2: { intros Hall. exfalso.
       by apply (cert_block_incomplete RootCert _ _ _ _ _ _ _ eq_refl E2),
         Hall. }
  destruct (main_signing_ca_keys s2) as [[[sk sp]|e] s3] eqn:E3; simpl.
  2: { intros Hall. exfalso.
       by apply (keys_block_incomplete SigningKeys _ _ _ _ _ _ _ eq_refl
                   ltac:(done) E3), Hall. }
  destruct (main_signing_cert rc rk sp s3) as [[sc|e] s4] eqn:E4; simpl.
  2: { intros Hall. exfalso.
       by apply (cert_block_incomplete SigningCert _ _ _ _ _ _ _ eq_refl
                   E4), Hall. }
  destruct (main_server_keys s4) as [[[vk vp]|e] s5] eqn:E5; simpl.
  2: { intros Hall. exfalso.
       by apply (keys_block_incomplete ServerKeys _ _ _ _ _ _ _ eq_refl
                   ltac:(done) E5), Hall. }
  destruct (main_server_cert sc sk vp s5) as [[vc|e] s6] eqn:E6; simpl.
  2: { intros Hall. exfalso.
       by apply (cert_block_incomplete ServerCert _ _ _ _ _ _ _ eq_refl
                   E6), Hall. }
  destruct (main_client_keys s6) as [[[ck cp]|e] s7] eqn:E7; simpl.
  2: { intros Hall. exfalso.
       by apply (keys_block_incomplete ClientKeys _ _ _ _ _ _ _ eq_refl
                   ltac:(done) E7), Hall. }
  destruct (main_client_cert ck s7) as [[cc|e] s8] eqn:E8; simpl.
  2: { intros Hall. exfalso.
       by apply (cert_block_incomplete ClientCert _ _ _ _ _ _ _ eq_refl
                   E8), Hall. }
  done.
Qed.

(** X10. A run of [main] returns normally exactly when all eight slots are
    present at its end: a run that raises leaves the slot of the statement
    that raised with a file missing or unreadable. *)
Theorem run_returns_iff_store_complete s0 :
  (main s0).1 = Ok () ↔ ∀ k, present k (fs (main s0).2).
Proof.
  split; [apply (proj2 (main_ledger s0))|apply complete_store_returns].
Qed.

(** X11. A key slot with one file readable and the other missing is
    created anew: when the generator returns a key pair, the statement of
    the slot returns that pair and both files hold it afterwards, so the
    file that was there is overwritten and its content is not used. *)
Theorem lone_key_file_is_replaced r s old priv_key pub_key w' :
  (fs s !! (key_files r).1 = Some (File old) ∧
   fs s !! (key_files r).2 = None) ∨
  (fs s !! (key_files r).1 = None ∧
   fs s !! (key_files r).2 = Some (File old)) →
  create_rsa_key_pair (world s) = (Ok (priv_key, pub_key), w') →
  ∃ s', main_keys_statement r s = (Ok (priv_key, pub_key), s') ∧
    fs s' = <[(key_files r).2 := File pub_key]>
              (<[(key_files r).1 := File priv_key]> (fs s)) ∧
    world s' = w'.
Proof.
  intros Hfiles Hc.
  assert (Hgen : ∀ priv pub rm cm,
    priv ≠ pub →
    (fs s !! priv = Some (File old) ∧ fs s !! pub = None) ∨
    (fs s !! priv = None ∧ fs s !! pub = Some (File old)) →
    ∃ s', keys_block priv pub rm cm s = (Ok (priv_key, pub_key), s') ∧
      fs s' = <[pub := File pub_key]> (<[priv := File priv_key]> (fs s)) ∧
      world s' = w').
  { intros priv pub rm cm Hne [[Hp Hq]|[Hp Hq]]; unfold_run;
      rewrite Hp; simpl; rewrite ?Hq; simpl; rewrite Hc; simpl;
      rewrite Hp; simpl; rewrite lookup_insert_ne, Hq by done; simpl;
      eexists; (split; [reflexivity|]); done. }
  destruct r; simpl in *; by apply Hgen.
Qed.

(** ** Runs of [main]: files that are read and never used *)

Lemma related_keys_block_own_priv f pub rm cm :
  pub ≠ f →
  related f (λ v1 v2, v1.2 = v2.2)
    (keys_block f pub rm cm) (keys_block f pub rm cm).
Proof.
  intros Hq. apply related_try.
  - eapply related_bind; [apply related_read_own|]. intros p1 p2 _.
    eapply related_bind; [by apply related_read|]. intros q ? <-.
    eapply related_bind; [apply related_print|]. intros _ _ _.
    by apply related_ret.
  - eapply related_weaken; [|apply related_keys_create].
    by intros ? ? <-.
Qed.

Lemma related_cert_block_own f rm cm create :
  related f (λ _ _, True)
    (cert_block f rm cm create) (cert_block f rm cm create).
Proof.
  apply related_try.
  - eapply related_bind; [apply related_read_own|]. intros c1 c2 _.
    eapply related_bind; [apply related_print|]. intros _ _ _.
    by apply related_ret.
  - apply (related_weaken _ eq); [done|].
    eapply related_bind; [apply related_print|]. intros _ _ _.
    eapply related_bind; [apply related_in_world|]. intros c ? <-.
    eapply related_bind; [apply related_write|]. intros _ _ _.
    by apply related_ret.
Qed.

Ltac related_step lem :=
  eapply related_bind;
  [ first [ rewrite main_root_ca_keys_block
          | rewrite main_root_cert_block
          | rewrite main_signing_ca_keys_block
          | rewrite main_signing_cert_block
          | rewrite main_server_keys_block
          | rewrite main_server_cert_block
          | rewrite main_client_keys_block
          | rewrite main_client_cert_block ];
    by apply lem
  | ].

Lemma main_ignores_server_priv_key :
  related "server_priv_key.pem" eq main main.
Proof.
  unfold main.
  related_step related_keys_block. intros [rk rp] ? <-.
  related_step related_cert_block. intros rc ? <-.
  related_step related_keys_block. intros [sk sp] ? <-.
  related_step related_cert_block. intros sc ? <-.
  related_step related_keys_block_own_priv.
  intros [vk1 vp] [vk2 ?] [= <-].
  related_step related_cert_block. intros vc ? <-.
  related_step related_keys_block. intros [ck cp] ? <-.
  related_step related_cert_block. intros cc ? <-.
  by apply related_ret.
Qed.

Lemma main_ignores_server_cert :
  related "server_cert.pem" eq main main.
Proof.
  unfold main.
  related_step related_keys_block. intros [rk rp] ? <-.
  related_step related_cert_block. intros rc ? <-.
  related_step related_keys_block. intros [sk sp] ? <-.
  related_step related_cert_block. intros sc ? <-.
  related_step related_keys_block. intros [vk vp] ? <-.
  related_step related_cert_block_own. intros vc1 vc2 _.
  related_step related_keys_block. intros [ck cp] ? <-.
  related_step related_cert_block. intros cc ? <-.
  by apply related_ret.
Qed.

Lemma main_ignores_client_cert :
  related "client_cert.pem" eq main main.
Proof.
  unfold main.
  related_step related_keys_block. intros [rk rp] ? <-.
  related_step related_cert_block. intros rc ? <-.
  related_step related_keys_block. intros [sk sp] ? <-.
  related_step related_cert_block. intros sc ? <-.
  related_step related_keys_block. intros [vk vp] ? <-.
  related_step related_cert_block. intros vc ? <-.
  related_step related_keys_block. intros [ck cp] ? <-.
  related_step related_cert_block_own. intros cc1 cc2 _.
  by apply related_ret.
Qed.

(** X12. A run of [main] does not depend on what server_priv_key.pem,
    server_cert.pem and client_cert.pem hold: these files are read and
    their bytes never parsed nor passed to a builder. With any of them
    holding one content or another, the run returns or raises the same,
    logs the same events, leaves the backend in the same world and every
    other file with the same content. *)
Theorem unused_files_do_not_matter f s content1 content2 :
  f ∈ ["server_priv_key.pem"; "server_cert.pem"; "client_cert.pem"] →
  let run1 := main (set_file f (File content1) s) in
  let run2 := main (set_file f (File content2) s) in
  run1.1 = run2.1 ∧
  trace run1.2 = trace run2.2 ∧
  world run1.2 = world run2.2 ∧
  ∀ g, g ≠ f → fs run1.2 !! g = fs run2.2 !! g.
Proof.
  intros Hf run1 run2.
  assert (Hs : agree_except f (set_file f (File content1) s)
                 (set_file f (File content2) s)).
  { unfold agree_except, set_file. simpl.
    split; [done|]. split; [done|]. split; [|split].
    - intros g Hg. by rewrite !lookup_insert_ne.
    - exists content1. by rewrite lookup_insert_eq.
    - exists content2. by rewrite lookup_insert_eq. }
  assert (Hrel : related f eq main main).
  { in_list Hf; subst f;
      [apply main_ignores_server_priv_key
      |apply main_ignores_server_cert
      |apply main_ignores_client_cert]. }
  destruct (Hrel _ _ Hs) as [(Ht & Hw & Hfs & _) Hr].
  fold run1 run2 in Ht, Hw, Hfs, Hr.
  split; [|done].
  destruct run1.1 as [[]|e1], run2.1 as [[]|e2]; try done.
  by subst.
Qed.

(** ** Runs of [main]: a directory in the place of a file *)

Lemma write_file_keeps_directories g content s f :
  fs s !! f = Some Directory →
  fs (write_file g content s).2 !! f = Some Directory.
Proof.
  intros Hd. unfold write_file.
  destruct (decide (g = f)) as [->|Hne].
  - by rewrite Hd.
  - destruct (fs s !! g) as [[c|]|]; simpl; by rewrite ?lookup_insert_ne.
Qed.

Lemma cert_block_keeps_directories file rm cm create s f :
  fs s !! f = Some Directory →
  fs (cert_block file rm cm create s).2 !! f = Some Directory.
Proof.
  intros Hd. unfold_run.
  destruct (fs s !! file) as [[c|]|] eqn:Hf; simpl; try done.
  destruct (create (world s)) as [[c|e] w']; simpl; [|done].
  rewrite Hf. simpl. rewrite lookup_insert_ne; [done|]. congruence.
Qed.

Lemma keys_block_keeps_directories priv pub rm cm s f :
  fs s !! f = Some Directory →
  fs (keys_block priv pub rm cm s).2 !! f = Some Directory.
Proof.
  intros Hd.
  assert (Hcreate : ∀ s1 : State, fs s1 = fs s →
    fs ((print cm;;
         '(priv_key, pub_key) ← in_world create_rsa_key_pair;
         write_file priv priv_key;;
         write_file pub pub_key;;
         mret (priv_key, pub_key)) s1).2 !! f = Some Directory).
  { intros s1 Hs1. unfold mbind, M_bind, print, in_world, mret, M_ret, log.
    simpl.
    destruct (create_rsa_key_pair (world s1)) as [[[p q]|e] w']; simpl;
      [|by rewrite Hs1].
    match goal with
    | |- context [write_file priv p ?st] =>
        pose proof (write_file_keeps_directories priv p st f) as H1;
        destruct (write_file priv p st) as [[[]|e] s2] eqn:E; simpl in *
    end; [|apply H1; by rewrite Hs1].
    pose proof (write_file_keeps_directories pub q s2 f) as H2.
    destruct (write_file pub q s2) as [[[]|e] s3]; simpl in *;
      apply H2, H1; by rewrite Hs1. }
  unfold keys_block, try_except_FileNotFoundError.
  unfold mbind at 1 2 3, M_bind at 1 2 3, read_file, print, mret, M_ret.
  destruct (fs s !! priv) as [[p0|]|] eqn:Hpriv; simpl.
  - destruct (fs s !! pub) as [[q0|]|] eqn:Hpub; simpl; try done.
    by apply Hcreate.
  - done.
  - by apply Hcreate.
Qed.

Lemma main_keeps_directories s0 f :
  fs s0 !! f = Some Directory → fs (main s0).2 !! f = Some Directory.
Proof.
  intros H0. unfold main, mbind, M_bind.
  pose proof (keys_block_keeps_directories _ _ _ _ s0 f H0
    : fs (main_root_ca_keys s0).2 !! f = Some Directory) as H1.
  destruct (main_root_ca_keys s0) as [[[rk rp]|e] s1]; simpl in *; [|done].
  pose proof (cert_block_keeps_directories _ _ _ _ s1 f H1
    : fs (main_root_cert rk s1).2 !! f = Some Directory) as H2.
  destruct (main_root_cert rk s1) as [[rc|e] s2]; simpl in *; [|done].
  pose proof (keys_block_keeps_directories _ _ _ _ s2 f H2
    : fs (main_signing_ca_keys s2).2 !! f = Some Directory) as H3.
  destruct (main_signing_ca_keys s2) as [[[sk sp]|e] s3]; simpl in *;
    [|done].
  pose proof (cert_block_keeps_directories _ _ _ _ s3 f H3
    : fs (main_signing_cert rc rk sp s3).2 !! f = Some Directory) as H4.
  destruct (main_signing_cert rc rk sp s3) as [[sc|e] s4]; simpl in *;
    [|done].
  pose proof (keys_block_keeps_directories _ _ _ _ s4 f H4
    : fs (main_server_keys s4).2 !! f = Some Directory) as H5.
  destruct (main_server_keys s4) as [[[vk vp]|e] s5]; simpl in *; [|done].
  pose proof (cert_block_keeps_directories _ _ _ _ s5 f H5
    : fs (main_server_cert sc sk vp s5).2 !! f = Some Directory) as H6.
  destruct (main_server_cert sc sk vp s5) as [[vc|e] s6]; simpl in *;
    [|done].
  pose proof (keys_block_keeps_directories _ _ _ _ s6 f H6
    : fs (main_client_keys s6).2 !! f = Some Directory) as H7.
  destruct (main_client_keys s6) as [[[ck cp]|e] s7]; simpl in *; [|done].
  pose proof (cert_block_keeps_directories _ _ _ _ s7 f H7
    : fs (main_client_cert ck s7).2 !! f = Some Directory) as H8.
  destruct (main_client_cert ck s7) as [[cc|e] s8]; simpl in *; done.
Qed.

(** X13. A directory in the place of one of the twelve files is never
    replaced, and every run of [main] over such a store raises: nothing
    but the absence of a file sends a statement to its creating branch. *)
Theorem directory_blocks_the_run s0 k f :
  f ∈ slot_files k → fs s0 !! f = Some Directory →
  fs (main s0).2 !! f = Some Directory ∧
  (∀ content, ¬ main_writes s0 f content) ∧
  ∃ e, (main s0).1 = Raise e.
Proof.
  intros Hf Hd. pose proof (main_keeps_directories s0 f Hd) as Hd'.
  split; [done|]. split.
  - intros content Hw. apply main_writes_ledger in Hw as [Hfile _].
    congruence.
  - destruct (main s0).1 as [[]|e] eqn:Hr; [|by exists e].
    pose proof (proj2 (main_ledger s0) Hr k f Hf) as [c Hc]. congruence.
Qed.

(** ** Runs of [main] in an environment that works *)

Lemma create_rsa_key_pair_works `{!BackendSpec} good w :
  environment good → good w →
  ∃ key w',
    rsa_parameters key = Some (65537, 2048) ∧
    create_rsa_key_pair w =
    (Ok (private_bytes key PEM PKCS8 NoEncryption,
         public_bytes (private_key_public_key key) PEM PKCS1), w') ∧
    good w'.
Proof.
  intros E Hw. destruct (generator_returns good E w Hw) as (key & w' & Hg & Hw').
  exists key, w'. split; [by apply (rsa_generate_parameters _ _ w key w')|].
  split; [|done]. unfold create_rsa_key_pair, mbind, M_bind, call_opt.
  by rewrite Hg.
Qed.

Lemma builder_works `{!BackendWorks} good r pem_issuer_cert
    pem_private_key pem_public_key w key :
  environment good → good w →
  load_pem_private_key pem_private_key None = Ok key →
  rsa_parameters key = Some (65537, 2048) →
  (r = IntermediateCA ∨ r = Server →
   (∃ c, load_pem_x509_certificate pem_issuer_cert = Ok c) ∧
   ∃ public_key,
     load_pem_public_key pem_public_key = Ok public_key ∧
     is_certificate_public_key public_key = true) →
  ∃ content w',
    builder r pem_issuer_cert pem_private_key pem_public_key
      (requested_days r) w = (Ok content, w') ∧
    good w'.
Proof.
  intros E Hw Hkey Hrsa Hothers.
  destruct (clock_in_range good E w Hw) as (Hearly & Hlate & Hw1).
  destruct (serial_in_range good E _ Hw1) as (Hserial & Hw2).
  assert (Hdays : 0 ≤ requested_days r ≤ 365) by (destruct r; simpl; lia).
  assert (Hparse : parse_error r pem_issuer_cert pem_private_key
                     pem_public_key = None).
  { unfold parse_error. rewrite Hkey. destruct r; try done;
      destruct Hothers as [[c ->] (p & -> & _)]; auto. }
  assert (Hsubject : ∃ public_key,
            subject_key r pem_private_key pem_public_key = Some public_key ∧
            is_certificate_public_key public_key = true).
  { unfold subject_key. destruct r; rewrite ?Hkey;
      first [ eexists; split; [reflexivity|]; by apply rsa_public_key_fits
            | destruct Hothers as [_ (p & -> & Hp)]; eauto ]. }
  destruct Hsubject as (public_key & Hsubject & Hfits).
  revert Hearly Hlate Hserial.
  generalize (requested_days r) Hdays. intros days Hdays'.
  set (now := (datetime_now w).1). set (w1 := (datetime_now w).2) in *.
  set (serial := (random_serial_number w1).1).
  intros Hearly Hlate Hserial.
  assert (Hfit :
    negb (((-999999999 <=? days) && (days <=? 999999999)) &&
          ((0 <=? now + days * 86400000000) &&
           (now + days * 86400000000 <=? datetime_max))) = false).
  { clear - Hearly Hlate Hdays'. unfold Builder.EARLY_UTC_TIME in Hearly.
    apply negb_false_iff. rewrite !andb_true_iff.
    rewrite !Z.leb_le. lia. }
  assert (Hdates :
    (now <? Builder.EARLY_UTC_TIME) || (days <? 0) = false).
  { clear - Hearly Hdays'. apply orb_false_iff.
    rewrite !Z.ltb_ge. lia. }
  assert (Hser : (serial <=? 0) || (2 ^ 159 <=? serial) = false).
  { clear - Hserial. apply orb_false_iff. rewrite !Z.leb_gt. lia. }
  pose proof (builder_cases r pem_issuer_cert pem_private_key
                pem_public_key days w) as Hcases.
  cbv zeta in Hcases. fold now w1 serial in Hcases.
  rewrite Hparse, Hfit, Hdates, Hser in Hcases.
  destruct Hcases as (key' & public_key' & Hk & Hs & Hcases).
  unfold signing_key in Hk. rewrite Hkey in Hk. injection Hk as <-.
  rewrite Hsubject in Hs. injection Hs as <-. rewrite Hfits in Hcases.
  destruct Hcases as [[content Hrun]|(tbs & e & Hcomplete & Hsig & _)].
  - by exists content, (random_serial_number w1).2.
  - destruct (rsa_key_signs key tbs Hrsa Hcomplete) as [sig Hsig'].
    congruence.
Qed.

Lemma keys_block_works `{!BackendSpec} good priv pub rm cm s :
  environment good → good (world s) →
  priv ≠ pub →
  fs s !! priv ≠ Some Directory → fs s !! pub ≠ Some Directory →
  ∃ p q s',
    keys_block priv pub rm cm s = (Ok (p, q), s') ∧
    fs s' !! priv = Some (File p) ∧ fs s' !! pub = Some (File q) ∧
    (∀ f, f ≠ priv → f ≠ pub → fs s' !! f = fs s !! f) ∧
    good (world s') ∧
    ((fs s !! priv = Some (File p) ∧ fs s !! pub = Some (File q)) ∨
     ∃ key, rsa_parameters key = Some (65537, 2048) ∧
       p = private_bytes key PEM PKCS8 NoEncryption ∧
       q = public_bytes (private_key_public_key key) PEM PKCS1).
Proof.
  intros E Hw Hne Hdp Hdq.
  destruct (create_rsa_key_pair_works good (world s) E Hw)
    as (key & w' & Hrsa & Hc & Hw').
  unfold_run.
  destruct (fs s !! priv) as [[p0|]|] eqn:Hpriv; simpl; [|done|].
  - destruct (fs s !! pub) as [[q0|]|] eqn:Hpub; simpl; [|done|].
    + eexists _, _, _. split; [reflexivity|]. simpl.
      repeat split; eauto.
    + rewrite Hc. simpl. rewrite Hpriv. simpl.
      rewrite lookup_insert_ne, Hpub by done. simpl.
      eexists _, _, _. split; [reflexivity|]. simpl.
      rewrite lookup_insert_ne, !lookup_insert_eq by done.
      repeat split; eauto 6.
      intros f H1 H2. by rewrite !lookup_insert_ne.
  - rewrite Hc. simpl. rewrite Hpriv. simpl.
    rewrite lookup_insert_ne by done.
    destruct (fs s !! pub) as [[q0|]|] eqn:Hpub; simpl; [|done|];
      (eexists _, _, _; split; [reflexivity|]; simpl;
       rewrite lookup_insert_ne, !lookup_insert_eq by done;
       repeat split; eauto 6;
       intros f H1 H2; by rewrite !lookup_insert_ne).
Qed.

Lemma cert_block_works (good : World → Prop) file rm cm create s :
  fs s !! file ≠ Some Directory →
  good (world s) →
  (∃ content w', create (world s) = (Ok content, w') ∧ good w') →
  ∃ c s',
    cert_block file rm cm create s = (Ok c, s') ∧
    fs s' !! file = Some (File c) ∧
    (∀ f, f ≠ file → fs s' !! f = fs s !! f) ∧
    good (world s') ∧
    (fs s !! file = Some (File c) ∨ ∃ w w', create w = (Ok c, w')).
Proof.
  intros Hd Hw (c & w' & Hc & Hw'). unfold_run.
  destruct (fs s !! file) as [[c0|]|] eqn:Hf; simpl; [|done|].
  - eexists _, _. split; [reflexivity|]. simpl. repeat split; eauto.
  - rewrite Hc. simpl. rewrite Hf. simpl.
    eexists _, _. split; [reflexivity|]. simpl.
    rewrite lookup_insert_eq. repeat split; eauto.
    intros f Hne. by rewrite lookup_insert_ne.
Qed.

Lemma usable_not_directory m k f :
  usable m → f ∈ slot_files k → m !! f ≠ Some Directory.
Proof. intros Hu Hf Hd. specialize (Hu k f Hf). by rewrite Hd in Hu. Qed.

Lemma usable_own_making m k f content :
  usable m → f ∈ slot_files k → m !! f = Some (File content) →
  own_making f content.
Proof. intros Hu Hf Hc. specialize (Hu k f Hf). by rewrite Hc in Hu. Qed.

Lemma usable_update m m' k :
  usable m →
  (∀ f, f ∉ slot_files k → m' !! f = m !! f) →
  (∀ f, f ∈ slot_files k →
        ∃ content, m' !! f = Some (File content) ∧ own_making f content) →
  usable m'.
Proof.
  intros Hu Hframe Hnew k' f Hf.
  destruct (decide (f ∈ slot_files k)) as [Hin|Hout].
  - destruct (Hnew f Hin) as (c & -> & Hp). done.
  - rewrite Hframe; [by apply (Hu k')|done].
Qed.

Lemma builder_returns_certificate r pem_issuer_cert pem_private_key
    pem_public_key days w content w' :
  builder r pem_issuer_cert pem_private_key pem_public_key days w
    = (Ok content, w') →
  ∃ c, content = certificate_public_bytes c PEM.
Proof.
  destruct r; simpl; intros Hb.
  - apply create_root_cert_inv in Hb as (? & c & _ & -> & _). by exists c.
  - apply create_signing_cert_inv in Hb
      as (? & ? & ? & c & _ & _ & _ & -> & _). by exists c.
  - apply create_server_cert_inv in Hb
      as (? & ? & ? & c & _ & _ & _ & -> & _). by exists c.
  - apply create_selfsigned_client_cert_inv in Hb
      as (? & c & _ & -> & _). by exists c.
Qed.

Ltac slot_mem := apply list_elem_of_In; simpl; tauto.

Lemma own_private_key `{!BackendWorks} f content :
  own_making f content →
  f ∈ ["root_ca_priv_key.pem"; "signing_ca_priv_key.pem";
       "client_priv_key.pem"] →
  ∃ key, load_pem_private_key content None = Ok key ∧
         rsa_parameters key = Some (65537, 2048).
Proof.
  intros (Hpriv & _) Hf. destruct (Hpriv Hf) as (key & Hrsa & ->).
  by apply private_key_reloads.
Qed.

Lemma own_public_key `{!BackendWorks} f content :
  own_making f content →
  f ∈ ["signing_ca_pub_key.pem"; "server_pub_key.pem"] →
  ∃ public_key, load_pem_public_key content = Ok public_key ∧
                is_certificate_public_key public_key = true.
Proof.
  intros (_ & Hpub & _) Hf. destruct (Hpub Hf) as (key & Hrsa & ->).
  by apply public_key_reloads.
Qed.

Lemma own_certificate `{!BackendWorks} f content :
  own_making f content →
  f = "root_cert.pem" ∨ f = "signing_cert.pem" →
  ∃ c, load_pem_x509_certificate content = Ok c.
Proof.
  intros (_ & _ & Hroot & Hsigning) Hf.
  assert (Hc : ∃ c, content = certificate_public_bytes c PEM).
  { destruct Hf as [Hf|Hf].
    - destruct (Hroot Hf) as (days & w & pem & w' & Hb).
      by apply (builder_returns_certificate Root [] pem [] days w _ w').
    - destruct (Hsigning Hf) as (days & w & ic & pk & pb & w' & Hb).
      by apply (builder_returns_certificate IntermediateCA ic pk pb days w
                  _ w'). }
  destruct Hc as [c ->]. apply certificate_reloads.
Qed.

(* a file that [main] never parses is of the program's own making, whatever it
   holds; a key file just written holds the PEM of the new key *)
Ltac own :=
  unfold own_making; repeat split; intros Hin;
  first [ exfalso; in_list Hin; fail
        | discriminate Hin
        | eexists; split; [eassumption|reflexivity]
        | do 2 eexists; simpl; eauto 10 ].

(* after a key statement: the store is usable again *)
Ltac keys_usable U k F Lp Lq O :=
  apply (usable_update _ _ k U);
  [ intros f Hf; apply F; intros ->; apply Hf; slot_mem
  | intros f Hf; simpl in Hf; in_list Hf; subst f;
    [ eexists; split; [exact Lp|];
      destruct O as [[Hold _]|(key & Hrsa & -> & ->)];
      [ apply (usable_own_making _ k _ _ U); [slot_mem|exact Hold]
      | own ]
    | eexists; split; [exact Lq|];
      destruct O as [[_ Hold]|(key & Hrsa & -> & ->)];
      [ apply (usable_own_making _ k _ _ U); [slot_mem|exact Hold]
      | own ] ] ].

(* after a certificate statement *)
Ltac cert_usable U k F Lc O :=
  apply (usable_update _ _ k U);
  [ intros f Hf; apply F; intros ->; apply Hf; slot_mem
  | intros f Hf; simpl in Hf; in_list Hf; subst f;
    eexists; split; [exact Lc|];
    destruct O as [Hold|(w & w' & Hb)];
    [ apply (usable_own_making _ k _ _ U); [slot_mem|exact Hold]
    | own ] ].

Lemma main_works `{!BackendSpec} `{!BackendWorks} good s0 :
  environment good → good (world s0) → usable (fs s0) →
  (main s0).1 = Ok () ∧ usable (fs (main s0).2) ∧
  good (world (main s0).2).
Proof.
  intros E G0 U0. unfold main, mbind, M_bind.
  (* root keys *)
  destruct (keys_block_works good "root_ca_priv_key.pem"
              "root_ca_pub_key.pem" "read root CA keys."
              "Creating new root keys." s0 E G0)
    as (rk & rp & s1 & E1 & Lrk & Lrp & F1 & G1 & O1);
    [done|apply (usable_not_directory _ RootKeys); [done|slot_mem]..|].
  rewrite <- main_root_ca_keys_block in E1. rewrite E1. clear E1.
  assert (U1 : usable (fs s1)) by keys_usable U0 RootKeys F1 Lrk Lrp O1.
  clear O1.
  destruct (own_private_key "root_ca_priv_key.pem" rk)
    as (root_key & Prk & Rrk);
    [apply (usable_own_making _ RootKeys _ _ U1); [slot_mem|exact Lrk]
    |slot_mem|].
  (* root certificate *)
  destruct (cert_block_works good "root_cert.pem" "read root certificate."
              "Creating new root certificate." (create_root_cert rk 365)
              s1)
    as (rc & s2 & E2 & Lrc & F2 & G2 & O2);
    [apply (usable_not_directory _ RootCert); [done|slot_mem]|done| |].
  { apply (builder_works good Root [] rk [] (world s1) root_key E G1 Prk
             Rrk).
    by intros [|]. }
  rewrite <- main_root_cert_block in E2. rewrite E2. clear E2.
  assert (U2 : usable (fs s2)) by cert_usable U1 RootCert F2 Lrc O2.
  clear O2.
  destruct (own_certificate "root_cert.pem" rc) as (root_c & Prc);
    [apply (usable_own_making _ RootCert _ _ U2); [slot_mem|exact Lrc]
    |by left|].
  (* signing keys *)
  destruct (keys_block_works good "signing_ca_priv_key.pem"
              "signing_ca_pub_key.pem" "read signing keys."
              "Creating new signing CA keys." s2 E G2)
    as (sk & sp & s3 & E3 & Lsk & Lsp & F3 & G3 & O3);
    [done|apply (usable_not_directory _ SigningKeys); [done|slot_mem]..|].
  rewrite <- main_signing_ca_keys_block in E3. rewrite E3. clear E3.
  assert (U3 : usable (fs s3))
    by keys_usable U2 SigningKeys F3 Lsk Lsp O3.
  clear O3.
  destruct (own_private_key "signing_ca_priv_key.pem" sk)
    as (signing_key & Psk & Rsk);
    [apply (usable_own_making _ SigningKeys _ _ U3); [slot_mem|exact Lsk]
    |slot_mem|].
  destruct (own_public_key "signing_ca_pub_key.pem" sp)
    as (signing_pub & Psp & Fsp);
    [apply (usable_own_making _ SigningKeys _ _ U3); [slot_mem|exact Lsp]
    |slot_mem|].
  (* signing certificate *)
  destruct (cert_block_works good "signing_cert.pem"
              "read signing certificate."
              "Creating new signing certificate."
              (create_signing_cert rc rk sp 14) s3)
    as (sc & s4 & E4 & Lsc & F4 & G4 & O4);
    [apply (usable_not_directory _ SigningCert); [done|slot_mem]|done| |].
  { apply (builder_works good IntermediateCA rc rk sp (world s3) root_key
             E G3 Prk Rrk).
    intros _. eauto. }
  rewrite <- main_signing_cert_block in E4. rewrite E4. clear E4.
  assert (U4 : usable (fs s4)) by cert_usable U3 SigningCert F4 Lsc O4.
  clear O4.
  destruct (own_certificate "signing_cert.pem" sc) as (signing_c & Psc);
    [apply (usable_own_making _ SigningCert _ _ U4); [slot_mem|exact Lsc]
    |by right|].
  (* server keys *)
  destruct (keys_block_works good "server_priv_key.pem"
              "server_pub_key.pem" "read server keys."
              "Creating new server keys." s4 E G4)
    as (vk & vp & s5 & E5 & Lvk & Lvp & F5 & G5 & O5);
    [done|apply (usable_not_directory _ ServerKeys); [done|slot_mem]..|].
  rewrite <- main_server_keys_block in E5. rewrite E5. clear E5.
  assert (U5 : usable (fs s5)) by keys_usable U4 ServerKeys F5 Lvk Lvp O5.
  clear O5.
  destruct (own_public_key "server_pub_key.pem" vp)
    as (server_pub & Pvp & Fvp);
    [apply (usable_own_making _ ServerKeys _ _ U5); [slot_mem|exact Lvp]
    |slot_mem|].
  (* server certificate *)
  destruct (cert_block_works good "server_cert.pem"
              "read server certificate."
              "Creating new server certificate."
              (create_server_cert sc sk vp 14) s5)
    as (vc & s6 & E6 & Lvc & F6 & G6 & O6);
    [apply (usable_not_directory _ ServerCert); [done|slot_mem]|done| |].
  { apply (builder_works good Server sc sk vp (world s5) signing_key
             E G5 Psk Rsk).
    intros _. eauto. }
  rewrite <- main_server_cert_block in E6. rewrite E6. clear E6.
  assert (U6 : usable (fs s6)) by cert_usable U5 ServerCert F6 Lvc O6.
  clear O6.
  (* client keys *)
  destruct (keys_block_works good "client_priv_key.pem"
              "client_pub_key.pem" "read client keys."
              "Creating new client keys." s6 E G6)
    as (ck & cp & s7 & E7 & Lck & Lcp & F7 & G7 & O7);
    [done|apply (usable_not_directory _ ClientKeys); [done|slot_mem]..|].
  rewrite <- main_client_keys_block in E7. rewrite E7. clear E7.
  assert (U7 : usable (fs s7)) by keys_usable U6 ClientKeys F7 Lck Lcp O7.
  clear O7.
  destruct (own_private_key "client_priv_key.pem" ck)
    as (client_key & Pck & Rck);
    [apply (usable_own_making _ ClientKeys _ _ U7); [slot_mem|exact Lck]
    |slot_mem|].
  (* client certificate *)
  destruct (cert_block_works good "client_cert.pem"
              "read client certificate."
              "Creating new client certificate."
              (create_selfsigned_client_cert ck 14) s7)
    as (cc & s8 & E8 & Lcc & F8 & G8 & O8);
    [apply (usable_not_directory _ ClientCert); [done|slot_mem]|done| |].
  { apply (builder_works good Client [] ck [] (world s7) client_key E G7
             Pck Rck).
    by intros [|]. }
  rewrite <- main_client_cert_block in E8. rewrite E8. clear E8.
  assert (U8 : usable (fs s8)) by cert_usable U7 ClientCert F8 Lcc O8.
  split; [reflexivity|]. split; [exact U8|exact G8].
Qed.

(** X14. In an environment that works (the generator returns, the clock
    and the serial numbers are in range) and with a package that reads
    back what it writes and signs with the keys the program makes, a run
    of [main] over a store of the program's own making, whichever of its
    files are missing, returns normally and leaves such a store, with all
    eight slots present. *)
Theorem working_backend_usable_store `{!BackendSpec} `{!BackendWorks}
    good s0 :
  environment good → good (world s0) → usable (fs s0) →
  (main s0).1 = Ok () ∧
  usable (fs (main s0).2) ∧
  (∀ k, present k (fs (main s0).2)) ∧
  good (world (main s0).2).
Proof.
  intros E G0 U0. destruct (main_works good s0 E G0 U0) as (Hok & U & G).
  split; [done|]. split; [done|]. split; [|done].
  by apply (proj2 (main_ledger s0)).
Qed.

(** X15. Under the same conditions a run of [main] creates whatever is
    missing: each of the twelve files that is absent at the start is
    written by the run and is there at the end. From an empty store that
    is all twelve. *)
Theorem missing_files_are_created `{!BackendSpec} `{!BackendWorks}
    good s0 k f :
  environment good → good (world s0) → usable (fs s0) →
  f ∈ slot_files k → fs s0 !! f = None →
  ∃ content,
    main_writes s0 f content ∧
    fs (main s0).2 !! f = Some (File content).
Proof.
  intros E G0 U0 Hf Hnone.
  destruct (main_works good s0 E G0 U0) as (Hok & _).
  destruct (main_ledger s0) as [(evs & Htr & Hun & Hwr) Hall].
  destruct (Hall Hok k f Hf) as [c Hc].
  destruct (written_or_not evs f) as [[content Hin]|Hno].
  - exists content. split; [by exists evs|].
    by destruct (Hwr f content Hin) as [-> _].
  - rewrite Hun, Hnone in Hc by done. done.
Qed.
End More.

(** * The properties at work on concrete stores *)

Import Toy.

Ltac in_run evs :=
  exists evs; split;
  [ vm_compute; reflexivity
  | apply list_elem_of_In; vm_compute;
    repeat first [left; reflexivity | right] ].

Lemma issuer_and_key_identifiers_witness :
  main_writes empty_state "signing_cert.pem"
    ["C"%byte; "I"%byte; "*"%byte; "*"%byte; "*"%byte] ∧
  ∃ c,
    ["C"%byte; "I"%byte; "*"%byte; "*"%byte; "*"%byte]
      = certificate_public_bytes c PEM ∧
    subject_key_identifier (extensions c) =
      Some (key_identifier_from_public_key (cert_public_key c)) ∧
    ∃ pem signer,
      fs (main empty_state).2 !! "root_cert.pem" = Some (File pem) ∧
      load_pem_x509_certificate pem = Ok signer ∧
      issuer c = subject signer ∧
      authority_key_identifier (extensions c) =
        Some (key_identifier_from_public_key (cert_public_key signer)).
Proof.
  split; [in_run first_run_events|].
  apply (issuer_and_key_identifiers empty_state IntermediateCA).
  in_run first_run_events.
Defined.

Lemma populated_state_present : ∀ k, present k (fs populated_state).
Proof.
  intros k f Hf.
  destruct k; simpl in Hf; set_unfold in Hf;
    repeat destruct Hf as [Hf|Hf]; try contradiction; subst f;
    vm_compute; eexists; reflexivity.
Defined.

Lemma populated_store_is_only_read_witness :
  (∀ k, present k (fs populated_state)) ∧
  main populated_state =
  (Ok (),
   mkState (fs populated_state) (trace populated_state ++ read_only_events)
     (world populated_state)).
Proof.
  split; [exact populated_state_present|].
  exact (proj1 populated_store_is_only_read populated_state
           populated_state_present).
Defined.



Lemma basic_constraints_per_role_witness :
  builds IntermediateCA 14 5%nat ["C"%byte; "I"%byte; "*"%byte] ∧
  ∃ c, ["C"%byte; "I"%byte; "*"%byte] = certificate_public_bytes c PEM ∧
    ext_value <$> get_extension_for_oid (extensions c) BASIC_CONSTRAINTS =
    Some (BasicConstraints true (Some 0)).
Proof.
  assert (H : builds IntermediateCA 14 5%nat
                ["C"%byte; "I"%byte; "*"%byte]).
  { exists ["C"%byte; "R"%byte], ["P"%byte], ["K"%byte; "*"%byte], 7%nat.
    vm_compute. reflexivity. }
  split; [exact H|].
  exact (basic_constraints_per_role IntermediateCA 14 5%nat _ H).
Defined.



Lemma extension_criticality_witness :
  builds Server 14 5%nat ["C"%byte; "S"%byte; "*"%byte; "*"%byte] ∧
  ∃ c,
    ["C"%byte; "S"%byte; "*"%byte; "*"%byte]
      = certificate_public_bytes c PEM ∧
    ((λ e, ext_oid (ext_value e)) <$> extensions c) =
      [SUBJECT_ALTERNATIVE_NAME; BASIC_CONSTRAINTS; KEY_USAGE;
       EXTENDED_KEY_USAGE;
       AUTHORITY_KEY_IDENTIFIER; SUBJECT_KEY_IDENTIFIER].
Proof.
  assert (H : builds Server 14 5%nat
                ["C"%byte; "S"%byte; "*"%byte; "*"%byte]).
  { exists ["C"%byte; "I"%byte; "*"%byte], ["P"%byte; "*"%byte],
      ["K"%byte; "*"%byte; "*"%byte], 7%nat.
    vm_compute. reflexivity. }
  split; [exact H|].
  destruct (extension_criticality (B := backend) Server 14 5%nat _ H) as (c & Hc & Ho & _).
  by exists c.
Defined.



Lemma key_pair_parameters_witness :
  rsa_parameters (mkToyKey 65537 2048 0) = Some (65537, 2048) ∧
  create_rsa_key_pair 0%nat = (Ok (["P"%byte], ["K"%byte]), 1%nat).
Proof. exact (@key_pair_parameters _ _ toy_backend_spec 0%nat). Defined.

Lemma self_signed_certificates_use_the_private_key_witness :
  (create_root_cert ["P"%byte] 365 1%nat
     = (Ok ["C"%byte; "R"%byte], 3%nat) ∧
   ∃ key c,
     load_pem_private_key ["P"%byte] None = Ok key ∧
     ["C"%byte; "R"%byte] = certificate_public_bytes c PEM ∧
     cert_public_key c = private_key_public_key key) ∧
  (main (set_file "root_ca_pub_key.pem" (File []) populated_state)).1 =
  (main (set_file "root_ca_pub_key.pem" (File ["K"%byte]) populated_state)).1.
Proof.
  destruct (@self_signed_certificates_use_the_private_key _ backend)
    as (Hroot & _ & Hmain).
  split.
  - assert (H : create_root_cert ["P"%byte] 365 1%nat
                = (Ok ["C"%byte; "R"%byte], 3%nat))
      by (vm_compute; reflexivity).
    split; [exact H|].
    destruct (Hroot _ _ _ _ _ H) as (key & c & Hl & Hc & Hpk & _).
    exists key, c. split; [exact Hl|]. split; [exact Hc|exact Hpk].
  - apply (Hmain "root_ca_pub_key.pem" populated_state [] ["K"%byte]).
    by left.
Defined.

Lemma present_slot_is_reused_witness :
  fs populated_state !! cert_file Server
    = Some (File ["C"%byte; "S"%byte; "*"%byte; "*"%byte; "*"%byte;
                  "*"%byte; "*"%byte; "*"%byte]) ∧
  main_cert_statement Server [] [] [] populated_state =
    (Ok ["C"%byte; "S"%byte; "*"%byte; "*"%byte; "*"%byte; "*"%byte;
         "*"%byte; "*"%byte],
     log (EvPrint (read_message Server))
       (log (EvRead (cert_file Server)) populated_state)) ∧
  ∀ content, ¬ main_writes populated_state "server_cert.pem" content.
Proof.
  destruct (@present_slot_is_reused _ backend) as (Hread & _ & _ & Hmain).
  assert (H : fs populated_state !! cert_file Server
              = Some (File ["C"%byte; "S"%byte; "*"%byte; "*"%byte;
                            "*"%byte; "*"%byte; "*"%byte; "*"%byte]))
    by (vm_compute; reflexivity).
  split; [exact H|]. split.
  - exact (Hread Server [] [] [] populated_state _ H).
  - assert (Hin : "server_cert.pem" ∈ slot_files ServerCert)
      by (apply list_elem_of_In; simpl; tauto).
    destruct (Hmain populated_state ServerCert "server_cert.pem"
                (populated_state_present ServerCert) Hin) as [_ Hn].
    exact Hn.
Defined.

(** A key slot with only one of its two files is not present: the missing
    file sends the statement to its [except] branch, and the file that was
    there is overwritten with the new key. *)
Example half_present_key_slot_is_overwritten :
  fs half_state !! "root_ca_priv_key.pem"
    = Some (File ["P"%byte; "*"%byte; "*"%byte]) ∧
  fs half_state !! "root_ca_pub_key.pem" = None ∧
  main_writes half_state "root_ca_priv_key.pem" ["P"%byte] ∧
  fs (main half_state).2 !! "root_ca_priv_key.pem" = Some (File ["P"%byte]).
Proof.
  split; [vm_compute; reflexivity|]. split; [vm_compute; reflexivity|].
  split; [in_run half_run_events|vm_compute; reflexivity].
Qed.

(** * The further properties at work on concrete stores *)

(** The executable backend works, in every world. *)
Lemma toy_backend_works : @BackendWorks Toy.key_types Toy.backend.
Proof.
  constructor.
  - intros key Hrsa. by eexists.
  - intros key Hrsa. by eexists.
  - done.
  - intros key tbs Hrsa Hcomplete. by eexists.
  - intros c. by eexists.
Qed.

Lemma toy_environment : @environment _ backend (λ _, True).
Proof.
  constructor.
  - intros w _. by eexists _, _.
  - intros w _. cbn [datetime_now backend fst snd].
    pose proof (Z.mod_pos_bound (Z.of_nat w) 86400 ltac:(lia)).
    unfold Builder.EARLY_UTC_TIME, datetime_max. lia.
  - intros w _. cbn [random_serial_number backend fst snd].
    pose proof (Z.mod_pos_bound (Z.of_nat w) 4294967296 ltac:(lia)).
    assert (4294967296 < 2 ^ 159) by (by vm_compute). lia.
Qed.


Lemma subject_name_per_role_witness :
  builds Server 14 5%nat ["C"%byte; "S"%byte; "*"%byte; "*"%byte] ∧
  ∃ c,
    ["C"%byte; "S"%byte; "*"%byte; "*"%byte]
      = certificate_public_bytes c PEM ∧
    subject c =
      [mkNameAttribute ORGANIZATIONAL_UNIT_NAME "Mothership Server"].
Proof.
  assert (H : builds Server 14 5%nat
                ["C"%byte; "S"%byte; "*"%byte; "*"%byte]).
  { exists ["C"%byte; "I"%byte; "*"%byte], ["P"%byte; "*"%byte],
      ["K"%byte; "*"%byte; "*"%byte], 7%nat.
    vm_compute. reflexivity. }
  split; [exact H|].
  exact (subject_name_per_role Server 14 5%nat _ H).
Defined.

Lemma alternative_name_and_extended_usage_per_role_witness :
  builds Client 14 5%nat ["C"%byte; "O"%byte; "*"%byte] ∧
  ∃ c,
    ["C"%byte; "O"%byte; "*"%byte] = certificate_public_bytes c PEM ∧
    ext_value <$>
      get_extension_for_oid (extensions c) SUBJECT_ALTERNATIVE_NAME =
      Some (SubjectAlternativeName
              [DirectoryName
                 [mkNameAttribute SERIAL_NUMBER "device_0001"]]) ∧
    ext_value <$> get_extension_for_oid (extensions c) EXTENDED_KEY_USAGE =
      Some (ExtendedKeyUsage [CLIENT_AUTH]).
Proof.
  assert (H : builds Client 14 5%nat ["C"%byte; "O"%byte; "*"%byte]).
  { exists ["P"%byte; "*"%byte], 7%nat. vm_compute. reflexivity. }
  split; [exact H|].
  exact (alternative_name_and_extended_usage_per_role Client 14 5%nat _ H).
Defined.

Lemma serial_number_and_hash_witness :
  builds Root 365 1%nat ["C"%byte; "R"%byte] ∧
  ∃ c,
    ["C"%byte; "R"%byte] = certificate_public_bytes c PEM ∧
    serial_number c = 3 ∧
    signature_hash_algorithm c = SHA256.
Proof.
  assert (H : builds Root 365 1%nat ["C"%byte; "R"%byte]).
  { exists ["P"%byte], 3%nat. vm_compute. reflexivity. }
  split; [exact H|].
  exact (serial_number_and_hash Root 365 1%nat _ H).
Defined.

Lemma keys_behind_a_certificate_witness :
  main_writes empty_state "server_cert.pem"
    ["C"%byte; "S"%byte; "*"%byte; "*"%byte; "*"%byte; "*"%byte; "*"%byte;
     "*"%byte] ∧
  ∃ c pem_key key,
    ["C"%byte; "S"%byte; "*"%byte; "*"%byte; "*"%byte; "*"%byte; "*"%byte;
     "*"%byte] = certificate_public_bytes c PEM ∧
    fs (main empty_state).2 !! "signing_ca_priv_key.pem"
      = Some (File pem_key) ∧
    load_pem_private_key pem_key None = Ok key ∧
    (∃ tbs, backend_sign key SHA256 tbs = Ok (signature c)) ∧
    ∃ pem_pub,
      fs (main empty_state).2 !! "server_pub_key.pem"
        = Some (File pem_pub) ∧
      load_pem_public_key pem_pub = Ok (cert_public_key c).
Proof.
  split; [in_run first_run_events|].
  apply (keys_behind_a_certificate empty_state Server).
  in_run first_run_events.
Defined.

Lemma notes_is_no_slot_file : ∀ k, "notes.txt" ∉ slot_files k.
Proof.
  intros k Hin. destruct k; simpl in Hin; set_unfold in Hin;
    repeat destruct Hin as [Hin|Hin]; try discriminate Hin; contradiction.
Defined.

Lemma main_keeps_to_its_files_witness :
  (∀ k, "notes.txt" ∉ slot_files k) ∧
  fs (main (set_file "notes.txt" (File []) empty_state)).2 !! "notes.txt"
  = fs (set_file "notes.txt" (File []) empty_state) !! "notes.txt".
Proof.
  split; [exact notes_is_no_slot_file|].
  apply (proj1 (main_keeps_to_its_files
                  (set_file "notes.txt" (File []) empty_state)
                  "notes.txt")).
  exact notes_is_no_slot_file.
Defined.

Lemma writes_follow_the_slot_order_witness :
  main_writes empty_state "client_cert.pem"
    ["C"%byte; "O"%byte; "*"%byte; "*"%byte; "*"%byte; "*"%byte; "*"%byte;
     "*"%byte; "*"%byte; "*"%byte; "*"%byte] ∧
  ∃ k, "client_cert.pem" ∈ slot_files k ∧
       ∀ k', (slot_rank k' < slot_rank k)%nat →
             present k' (fs (main empty_state).2).
Proof.
  assert (H : main_writes empty_state "client_cert.pem"
    ["C"%byte; "O"%byte; "*"%byte; "*"%byte; "*"%byte; "*"%byte; "*"%byte;
     "*"%byte; "*"%byte; "*"%byte; "*"%byte])
    by in_run first_run_events.
  split; [exact H|].
  exact (proj2 (writes_follow_the_slot_order empty_state _ _ H)).
Defined.

Lemma written_certificate_is_reused_witness :
  main_writes empty_state "root_cert.pem" ["C"%byte; "R"%byte] ∧
  fs (main (main empty_state).2).2 !! "root_cert.pem"
  = Some (File ["C"%byte; "R"%byte]).
Proof.
  assert (H : main_writes empty_state "root_cert.pem"
                ["C"%byte; "R"%byte])
    by in_run first_run_events.
  split; [exact H|].
  exact (proj2 (written_certificate_is_reused empty_state Root _ H)).
Defined.

Lemma written_keys_are_rsa_2048_witness :
  main_writes empty_state "root_ca_priv_key.pem" ["P"%byte] ∧
  ∃ key, rsa_parameters key = Some (65537, 2048) ∧
    ["P"%byte] = private_bytes key PEM PKCS8 NoEncryption.
Proof.
  split; [in_run first_run_events|].
  apply (proj1 (@written_keys_are_rsa_2048 _ _ toy_backend_spec
                  empty_state Root ["P"%byte])).
  in_run first_run_events.
Defined.

Lemma run_returns_iff_store_complete_witness :
  (main empty_state).1 = Ok () ∧
  ∀ k, present k (fs (main empty_state).2).
Proof.
  assert (H : (main empty_state).1 = Ok ()) by (vm_compute; reflexivity).
  split; [exact H|].
  exact (proj1 (run_returns_iff_store_complete empty_state) H).
Defined.

Lemma lone_key_file_is_replaced_witness :
  fs half_state !! "root_ca_priv_key.pem"
    = Some (File ["P"%byte; "*"%byte; "*"%byte]) ∧
  fs half_state !! "root_ca_pub_key.pem" = None ∧
  create_rsa_key_pair (world half_state)
    = (Ok (["P"%byte], ["K"%byte]), 1%nat) ∧
  ∃ s', main_keys_statement Root half_state
        = (Ok (["P"%byte], ["K"%byte]), s') ∧
    fs s' = <["root_ca_pub_key.pem" := File ["K"%byte]]>
              (<["root_ca_priv_key.pem" := File ["P"%byte]]>
                 (fs half_state)) ∧
    world s' = 1%nat.
Proof.
  assert (H1 : fs half_state !! "root_ca_priv_key.pem"
               = Some (File ["P"%byte; "*"%byte; "*"%byte]))
    by (vm_compute; reflexivity).
  assert (H2 : fs half_state !! "root_ca_pub_key.pem" = None)
    by (vm_compute; reflexivity).
  assert (H3 : create_rsa_key_pair (world half_state)
               = (Ok (["P"%byte], ["K"%byte]), 1%nat))
    by (vm_compute; reflexivity).
  repeat (split; [assumption|]).
  exact (lone_key_file_is_replaced Root half_state _ _ _ _
           (or_introl (conj H1 H2)) H3).
Defined.

Lemma unused_files_do_not_matter_witness :
  (main (set_file "server_cert.pem" (File []) populated_state)).1 =
  (main (set_file "server_cert.pem" (File ["C"%byte]) populated_state)).1.
Proof.
  assert (H : "server_cert.pem" ∈ ["server_priv_key.pem";
                 "server_cert.pem"; "client_cert.pem"])
    by (apply list_elem_of_In; simpl; tauto).
  exact (proj1 (unused_files_do_not_matter "server_cert.pem"
                  populated_state [] ["C"%byte] H)).
Defined.

Lemma directory_blocks_the_run_witness :
  "root_cert.pem" ∈ slot_files RootCert ∧
  fs (set_file "root_cert.pem" Directory empty_state) !! "root_cert.pem"
    = Some Directory ∧
  ∃ e, (main (set_file "root_cert.pem" Directory empty_state)).1 = Raise e.
Proof.
  assert (H1 : "root_cert.pem" ∈ slot_files RootCert)
    by (apply list_elem_of_In; simpl; tauto).
  assert (H2 : fs (set_file "root_cert.pem" Directory empty_state)
                 !! "root_cert.pem" = Some Directory)
    by (vm_compute; reflexivity).
  split; [exact H1|]. split; [exact H2|].
  exact (proj2 (proj2 (directory_blocks_the_run _ RootCert
                         "root_cert.pem" H1 H2))).
Defined.

Lemma empty_state_usable : usable (fs empty_state).
Proof. intros k f Hf. vm_compute. exact I. Defined.

Lemma working_backend_usable_store_witness :
  @environment _ backend (λ _, True) ∧ usable (fs empty_state) ∧
  (main empty_state).1 = Ok ().
Proof.
  split; [exact toy_environment|]. split; [exact empty_state_usable|].
  exact (proj1 (@working_backend_usable_store _ _ toy_backend_spec
                  toy_backend_works (λ _, True) empty_state
                  toy_environment I empty_state_usable)).
Defined.

Lemma missing_files_are_created_witness :
  @environment _ backend (λ _, True) ∧ usable (fs empty_state) ∧
  "server_pub_key.pem" ∈ slot_files ServerKeys ∧
  fs empty_state !! "server_pub_key.pem" = None ∧
  ∃ content,
    main_writes empty_state "server_pub_key.pem" content ∧
    fs (main empty_state).2 !! "server_pub_key.pem" = Some (File content).
Proof.
  assert (H1 : "server_pub_key.pem" ∈ slot_files ServerKeys)
    by (apply list_elem_of_In; simpl; tauto).
  assert (H2 : fs empty_state !! "server_pub_key.pem" = None)
    by (vm_compute; reflexivity).
  split; [exact toy_environment|]. split; [exact empty_state_usable|].
  split; [exact H1|]. split; [exact H2|].
  exact (@missing_files_are_created _ _ toy_backend_spec toy_backend_works
           (λ _, True) empty_state ServerKeys "server_pub_key.pem"
           toy_environment I empty_state_usable H1 H2).
Defined.
